(** * Record-tree bookkeeping and report export of the inspection GUI

    A shallow embedding of [src/app.py]: the tree of date / diagnosis /
    action items kept by [MainWindow], the per-date and per-diagnosis
    sequence counters, the resolution of the selected diagnosis, and the
    text export of [ReportDialog].

    Conventions.
    - A Python [str] is modelled by the byte string of its UTF-8 encoding
      ([string]); the literals below are the UTF-8 bytes of the source
      literals.  Replacing the ASCII space and joining with the ASCII
      newline commute with that encoding.
    - A Python [int] is a [Z]; [f"{n}"] of an int is [pretty n].
    - A [QTreeWidgetItem] is an object with identity: the window keeps a
      store of items and an item is named by its index in the store.
    - The payload dictionaries have a fixed set of keys; a key that may be
      absent is an [option] field and [d.get(k, v)] is [default v (k d)].
    - The toolkit (message boxes, file dialog, file system, clock) is the
      environment: what the code asks of it is returned as a list of
      [UiEffect]s, what it answers is an argument. *)

From Stdlib Require Import ZArith Lia Ascii String.
From stdpp Require Import base gmap strings list pretty.

(** ** Strings *)

(** The newline character of the source literals. *)
Definition nl : string := String "010"%char "".

(** [s.replace(old, new)] for one-character [old] and [new]. *)
Fixpoint replace (old new : ascii) (s : string) : string :=
  match s with
  | EmptyString => EmptyString
  | String c rest =>
      String (if bool_decide (c = old) then new else c) (replace old new rest)
  end.

(** ** Payloads and tree items *)

(** The dictionary attached to a diagnosis or action item.  An action
    payload has no ["action_seq"] key. *)
Record Payload := {
  kind : option string;
  created_at_full : option string;
  created_time : option string;
  title : option string;
  text : option string;
  table : option (list (list string));
  action_seq : option Z;
}.

Definition set_action_seq (v : Z) (p : Payload) : Payload :=
  {| kind := kind p; created_at_full := created_at_full p;
     created_time := created_time p; title := title p; text := text p;
     table := table p; action_seq := Some v |}.

Abbreviation item_id := nat.

(** The part of a [QTreeWidgetItem] the program reads or writes:
    [text(0)], [data(0, Qt.UserRole)], [parent()], the children in order,
    and the expanded flag. *)
Record QTreeWidgetItem := {
  item_text : string;
  item_data : option Payload;
  item_parent : option item_id;
  item_children : list item_id;
  item_expanded : bool;
}.

(** [QTreeWidgetItem([label])]. *)
Definition new_item (label : string) : QTreeWidgetItem :=
  {| item_text := label; item_data := None; item_parent := None;
     item_children := []; item_expanded := false |}.

Definition with_data (p : Payload) (it : QTreeWidgetItem) : QTreeWidgetItem :=
  {| item_text := item_text it; item_data := Some p;
     item_parent := item_parent it; item_children := item_children it;
     item_expanded := item_expanded it |}.

Definition with_parent (q : item_id) (it : QTreeWidgetItem) : QTreeWidgetItem :=
  {| item_text := item_text it; item_data := item_data it;
     item_parent := Some q; item_children := item_children it;
     item_expanded := item_expanded it |}.

Definition with_child (c : item_id) (it : QTreeWidgetItem) : QTreeWidgetItem :=
  {| item_text := item_text it; item_data := item_data it;
     item_parent := item_parent it; item_children := item_children it ++ [c];
     item_expanded := item_expanded it |}.

Definition with_expanded (b : bool) (it : QTreeWidgetItem) : QTreeWidgetItem :=
  {| item_text := item_text it; item_data := item_data it;
     item_parent := item_parent it; item_children := item_children it;
     item_expanded := b |}.

(** ** The main window *)

(** The state [MainWindow] keeps between two user actions. *)
Record MainWindow := {
  items : list QTreeWidgetItem;        (* the item objects, by identity *)
  top_level : list item_id;            (* record_tree top-level items *)
  current_item : option item_id;       (* record_tree.currentItem() *)
  date_roots : gmap string item_id;
  diag_seq_by_date : gmap string Z;
  log_view : string;                   (* log_view.toPlainText() *)
}.

(** The window after [__init__]. *)
Definition init : MainWindow :=
  {| items := []; top_level := []; current_item := None;
     date_roots := ∅; diag_seq_by_date := ∅; log_view := "" |}.

Definition set_items (l : list QTreeWidgetItem) (w : MainWindow) : MainWindow :=
  {| items := l; top_level := top_level w; current_item := current_item w;
     date_roots := date_roots w; diag_seq_by_date := diag_seq_by_date w;
     log_view := log_view w |}.

Definition set_diag_seq_by_date (m : gmap string Z) (w : MainWindow) : MainWindow :=
  {| items := items w; top_level := top_level w; current_item := current_item w;
     date_roots := date_roots w; diag_seq_by_date := m;
     log_view := log_view w |}.

Definition set_date_roots (m : gmap string item_id) (w : MainWindow) : MainWindow :=
  {| items := items w; top_level := top_level w; current_item := current_item w;
     date_roots := m; diag_seq_by_date := diag_seq_by_date w;
     log_view := log_view w |}.

(** [log_view.setPlainText(s)]. *)
Definition setPlainText (s : string) (w : MainWindow) : MainWindow :=
  {| items := items w; top_level := top_level w; current_item := current_item w;
     date_roots := date_roots w; diag_seq_by_date := diag_seq_by_date w;
     log_view := s |}.

(** [record_tree.setCurrentItem(i)]. *)
Definition setCurrentItem (sel : option item_id) (w : MainWindow) : MainWindow :=
  {| items := items w; top_level := top_level w; current_item := sel;
     date_roots := date_roots w; diag_seq_by_date := diag_seq_by_date w;
     log_view := log_view w |}.

(** [record_tree.addTopLevelItem(i)]. *)
Definition addTopLevelItem (i : item_id) (w : MainWindow) : MainWindow :=
  {| items := items w; top_level := top_level w ++ [i];
     current_item := current_item w; date_roots := date_roots w;
     diag_seq_by_date := diag_seq_by_date w; log_view := log_view w |}.

(** Constructing an item: the new object gets the next identity. *)
Definition construct (label : string) (w : MainWindow) : MainWindow * item_id :=
  (set_items (items w ++ [new_item label]) w, length (items w)).

(** [i.text(0)], [i.data(0, Qt.UserRole)] and [i.parent()]. *)
Definition item_text_of (w : MainWindow) (i : item_id) : string :=
  default "" (item_text <$> items w !! i).

Definition data (w : MainWindow) (i : item_id) : option Payload :=
  items w !! i ≫= item_data.

Definition parent (w : MainWindow) (i : item_id) : option item_id :=
  items w !! i ≫= item_parent.

Definition children (w : MainWindow) (i : item_id) : list item_id :=
  default [] (item_children <$> items w !! i).

(** [i.setData(0, Qt.UserRole, p)], [q.addChild(c)], [i.setExpanded(b)].
    The program only ever adds a freshly constructed item as a child, the
    case in which Qt appends it and makes [q] its parent. *)
Definition setData (i : item_id) (p : Payload) (w : MainWindow) : MainWindow :=
  set_items (alter (with_data p) i (items w)) w.

Definition addChild (q c : item_id) (w : MainWindow) : MainWindow :=
  set_items (alter (with_child c) q (alter (with_parent q) c (items w))) w.

Definition setExpanded (i : item_id) (b : bool) (w : MainWindow) : MainWindow :=
  set_items (alter (with_expanded b) i (items w)) w.

(** What the program asks of the toolkit. *)
Inductive UiEffect :=
  | MsgWarning (caption message : string)
  | MsgInformation (caption message : string)
  | MsgCritical (caption message : string)
  | GetSaveFileName (caption default_name filter : string)
  | FileWrite (path content : string)
  | ExecReportDialog (payload : Payload).

(** The three strings returned by [_now()]. *)
Record Timestamp := {
  date_str : string;
  time_str : string;
  full_str : string;
}.

Definition _ensure_date_root (d : string) (w : MainWindow) : MainWindow * item_id :=
  match date_roots w !! d with
  | Some date_item => (w, date_item)
  | None =>
      let '(w, date_item) := construct d w in
      let w := addTopLevelItem date_item w in
      let w := set_date_roots (<[d := date_item]> (date_roots w)) w in
      let w :=
        match diag_seq_by_date w !! d with
        | Some _ => w
        | None => set_diag_seq_by_date (<[d := 0%Z]> (diag_seq_by_date w)) w
        end in
      (w, date_item)
  end.

Definition on_tree_item_clicked (item : item_id) (w : MainWindow) : MainWindow :=
  match data w item with
  | None =>
      setPlainText "날짜 노드입니다. 하위 진단/조치 항목을 선택하세요." w
  | Some payload =>
      setPlainText ("[" +:+ default "" (created_time payload) +:+ "]" +:+ nl
                    +:+ default "" (text payload)) w
  end.

Definition diag_name (seq : Z) : string := "진단" +:+ pretty seq.

Definition diagnosis_payload (now : Timestamp) (seq : Z) : Payload :=
  {| kind := Some "diagnosis";
     created_at_full := Some (full_str now);
     created_time := Some (time_str now);
     title := Some (date_str now +:+ " " +:+ diag_name seq +:+ " 리포트");
     text := Some (diag_name seq +:+ " 더미 점검 결과입니다." +:+ nl
                   +:+ "추후 실제 점검 로그/판정 결과가 표시됩니다.");
     table := Some [ ["대상"; "서버-A"; "더미"];
                     ["상태"; "점검완료"; "placeholder"];
                     ["요약"; "취약점 점검 3건"; "예시"] ];
     action_seq := Some 0%Z |}.

Definition create_diagnosis_record (now : Timestamp) (w : MainWindow) : MainWindow :=
  let '(w, date_item) := _ensure_date_root (date_str now) w in
  let seq := (default 0 (diag_seq_by_date w !! date_str now) + 1)%Z in
  let w := set_diag_seq_by_date (<[date_str now := seq]> (diag_seq_by_date w)) w in
  let payload := diagnosis_payload now seq in
  let '(w, diag_item) := construct (diag_name seq) w in
  let w := setData diag_item payload w in
  let w := addChild date_item diag_item w in
  let w := setExpanded date_item true w in
  let w := setCurrentItem (Some diag_item) w in
  on_tree_item_clicked diag_item w.

Definition _resolve_selected_diagnosis (w : MainWindow) : option item_id :=
  match current_item w with
  | None => None
  | Some selected =>
      match data w selected with
      | Some payload =>
          if bool_decide (kind payload = Some "diagnosis") then Some selected
          else if bool_decide (kind payload = Some "action") then
            match parent w selected with
            | Some q => Some q
            | None => None
            end
          else None
      | None => None
      end
  end.

Definition action_name (seq : Z) : string := "조치" +:+ pretty seq.

Definition action_payload (now : Timestamp) (diag_text : string) (seq : Z) : Payload :=
  {| kind := Some "action";
     created_at_full := Some (full_str now);
     created_time := Some (time_str now);
     title := Some (date_str now +:+ " " +:+ diag_text +:+ " - "
                    +:+ action_name seq +:+ " 리포트");
     text := Some (diag_text +:+ "에 대한 " +:+ action_name seq
                   +:+ " 더미 실행 결과입니다.");
     table := Some [ ["조치대상"; diag_text; "더미"];
                     ["조치결과"; "성공"; "placeholder"];
                     ["비고"; action_name seq; "예시"] ];
     action_seq := None |}.

Definition no_selection_warning : UiEffect :=
  MsgWarning "선택 필요"
    "트리에서 진단 또는 해당 진단 하위 조치를 먼저 선택하세요.".

Definition payload_missing_warning : UiEffect :=
  MsgWarning "오류" "진단 payload를 찾지 못했습니다.".

Definition create_action_record (now : Timestamp) (w : MainWindow)
  : MainWindow * list UiEffect :=
  match _resolve_selected_diagnosis w with
  | None => (w, [no_selection_warning])
  | Some diag_item =>
      match data w diag_item with
      | None => (w, [payload_missing_warning])
      | Some diag_payload =>
          let next_seq := (default 0 (action_seq diag_payload) + 1)%Z in
          let w := setData diag_item (set_action_seq next_seq diag_payload) w in
          let payload := action_payload now (item_text_of w diag_item) next_seq in
          let '(w, action_item) := construct (action_name next_seq) w in
          let w := setData action_item payload w in
          let w := addChild diag_item action_item w in
          let w := setExpanded diag_item true w in
          let w := setCurrentItem (Some action_item) w in
          (on_tree_item_clicked action_item w, [])
      end
  end.

(** ** The report dialog *)

(** One line of the exported table: the row is padded to three columns
    and the first three are printed. *)
Definition table_line (row : list string) : string :=
  let padded := (row ++ replicate (Nat.max 0 (3 - length row)) "")%list in
  "- " +:+ nth 0 padded "" +:+ " | " +:+ nth 1 padded "" +:+ " | "
       +:+ nth 2 padded "".

Definition default_name (payload : Payload) : string :=
  replace " " "_" (default "report" (title payload)) +:+ ".txt".

Definition body (payload : Payload) : list string :=
  ([ "제목: " +:+ default "" (title payload);
     "종류: " +:+ default "" (kind payload);
     "생성시각: " +:+ default "" (created_at_full payload);
     "";
     "[요약]";
     default "" (text payload);
     "";
     "[표 데이터]" ]
   ++ map table_line (default [] (table payload)))%list.

(** The answers of the toolkit to one press of the save button: the path
    returned by the file dialog (empty when cancelled) and, when opening
    or writing the file raises [OSError], its message. *)
Record SaveEnv := {
  chosen_path : string;
  write_error : option string;
}.

Definition _save_as_txt (payload : Payload) (env : SaveEnv) : list UiEffect :=
  GetSaveFileName "리포트 저장" (default_name payload) "Text Files (*.txt)" ::
  if bool_decide (chosen_path env = "") then []
  else
    match write_error env with
    | None =>
        [ FileWrite (chosen_path env) (String.concat nl (body payload));
          MsgInformation "저장 완료"
            ("리포트를 저장했습니다." +:+ nl +:+ chosen_path env) ]
    | Some exc => [ MsgCritical "저장 실패" exc ]
    end.

(** [open_report_dialog]; [saves] are the presses of the save button while
    the dialog is open. *)
Definition open_report_dialog (saves : list SaveEnv) (w : MainWindow)
  : list UiEffect :=
  match current_item w with
  | None =>
      [ MsgInformation "선택 필요" "리포트로 볼 진단/조치 항목을 선택하세요." ]
  | Some selected =>
      match data w selected with
      | None =>
          [ MsgInformation "안내" "날짜 노드는 리포트를 표시하지 않습니다." ]
      | Some payload =>
          ExecReportDialog payload :: concat (map (_save_as_txt payload) saves)
      end
  end.

(** ** User actions *)

(** The signals connected in [_connect_signals], and a change of the
    current tree item that is not a click (keyboard, or no item). *)
Inductive UserEvent :=
  | StartDiagClicked (now : Timestamp)
  | RunActionClicked (now : Timestamp)
  | ItemClicked (item : item_id)
  | CurrentItemChanged (sel : option item_id)
  | ReportClicked (saves : list SaveEnv).

Definition in_tree (w : MainWindow) (i : item_id) : bool :=
  bool_decide (i < length (items w)).

Definition handle (e : UserEvent) (w : MainWindow) : MainWindow * list UiEffect :=
  match e with
  | StartDiagClicked now => (create_diagnosis_record now w, [])
  | RunActionClicked now => create_action_record now w
  | ItemClicked item =>
      if in_tree w item
      then (on_tree_item_clicked item (setCurrentItem (Some item) w), [])
      else (w, [])
  | CurrentItemChanged sel =>
      match sel with
      | Some item =>
          if in_tree w item then (setCurrentItem sel w, []) else (w, [])
      | None => (setCurrentItem None w, [])
      end
  | ReportClicked saves => (w, open_report_dialog saves w)
  end.

(** The window after a sequence of user actions, oldest first. *)
Definition run (es : list UserEvent) (w : MainWindow) : MainWindow :=
  fold_left (fun w e => (handle e w).1) es w.

(** The diagnosis a press of the action button acts on, when the press
    creates an action: the resolved item, which must carry a payload. *)
Definition action_target (w : MainWindow) : option item_id :=
  match _resolve_selected_diagnosis w with
  | Some diag_item =>
      match data w diag_item with Some _ => Some diag_item | None => None end
  | None => None
  end.

Definition starts_on (d : string) (e : UserEvent) : bool :=
  match e with
  | StartDiagClicked now => bool_decide (date_str now = d)
  | _ => false
  end.

(** Number of diagnoses started on date [d] during [es]. *)
Definition diag_count (d : string) (es : list UserEvent) : nat :=
  length (List.filter (starts_on d) es).

Definition acts_on (g : item_id) (w : MainWindow) (e : UserEvent) : bool :=
  match e with
  | RunActionClicked _ => bool_decide (action_target w = Some g)
  | _ => false
  end.

(** Number of actions created under the item [g] while [es] runs from [w]. *)
Fixpoint action_count (g : item_id) (es : list UserEvent) (w : MainWindow) : nat :=
  match es with
  | [] => 0
  | e :: es =>
      (if acts_on g w e then 1 else 0) + action_count g es (handle e w).1
  end.

(** The sequence numbers [1; ...; n]. *)
Definition seq_numbers (n : nat) : list Z := Z.of_nat <$> seq 1 n.

(** What [_now()] returns at date [d] and time [t]. *)
Definition timestamp (d t : string) : Timestamp :=
  {| date_str := d; time_str := t; full_str := d +:+ " " +:+ t |}.

(** ** Auxiliary notions for the proofs *)

(** The diagnosis item after an action was created under it, and the new
    action item. *)
Definition diag_after_action (n : nat) (p : Payload) (it : QTreeWidgetItem)
  : QTreeWidgetItem :=
  with_expanded true
    (with_child n
       (with_data (set_action_seq (default 0 (action_seq p) + 1)%Z p) it)).

Definition new_action_item (now : Timestamp) (g : item_id) (diag_text : string)
    (seq : Z) : QTreeWidgetItem :=
  with_parent g
    (with_data (action_payload now diag_text seq) (new_item (action_name seq))).

(** The date item after a diagnosis was added under it, and the new
    diagnosis item. *)
Definition root_after_diag (n : nat) (it : QTreeWidgetItem) : QTreeWidgetItem :=
  with_expanded true (with_child n it).

Definition new_diag_item (now : Timestamp) (r : item_id) (seq : Z)
  : QTreeWidgetItem :=
  with_parent r
    (with_data (diagnosis_payload now seq) (new_item (diag_name seq))).

Definition next_diag_seq (d : string) (w : MainWindow) : Z :=
  (default 0 (diag_seq_by_date w !! d) + 1)%Z.

Definition diag_title (d : string) (seq : Z) : string :=
  d +:+ " " +:+ diag_name seq +:+ " 리포트".

Definition action_title (d diag_text : string) (seq : Z) : string :=
  d +:+ " " +:+ diag_text +:+ " - " +:+ action_name seq +:+ " 리포트".

(** [it] is the [k]-th diagnosis of date [d], under the date item [r]. *)
Definition is_diag_item (d : string) (r : item_id) (k : nat)
    (it : QTreeWidgetItem) : Prop :=
  item_text it = diag_name (Z.of_nat k)
  ∧ item_parent it = Some r
  ∧ ∃ p, item_data it = Some p
         ∧ kind p = Some "diagnosis"
         ∧ title p = Some (diag_title d (Z.of_nat k)).

(** [it] is the [j]-th action of the diagnosis item [g], whose label is
    [diag_text]. *)
Definition is_action_item (g : item_id) (diag_text : string) (j : nat)
    (it : QTreeWidgetItem) : Prop :=
  item_text it = action_name (Z.of_nat j)
  ∧ item_parent it = Some g
  ∧ item_children it = []
  ∧ ∃ p d, item_data it = Some p
           ∧ kind p = Some "action"
           ∧ title p = Some (action_title d diag_text (Z.of_nat j)).

(** The items [cs] are in the store and the one at position [k] (from 0)
    satisfies [P (k + 1)]. *)
Definition children_are (w : MainWindow)
    (P : nat → QTreeWidgetItem → Prop) (cs : list item_id) : Prop :=
  ∀ k c, cs !! k = Some c → ∃ it, items w !! c = Some it ∧ P (S k) it.

(** [dc d] diagnoses were started on date [d] and [ac g] actions were
    created under item [g] so far. *)
Record Inv (dc : string → nat) (ac : item_id → nat) (w : MainWindow) : Prop := {
  inv_current : ∀ c, current_item w = Some c → c < length (items w);
  inv_absent : ∀ d, dc d = 0 →
    date_roots w !! d = None ∧ diag_seq_by_date w !! d = None;
  inv_root : ∀ d, 0 < dc d →
    ∃ r itr,
      date_roots w !! d = Some r
      ∧ items w !! r = Some itr
      ∧ item_text itr = d
      ∧ item_data itr = None
      ∧ item_parent itr = None
      ∧ length (item_children itr) = dc d
      ∧ diag_seq_by_date w !! d = Some (Z.of_nat (dc d))
      ∧ children_are w (is_diag_item d r) (item_children itr);
  inv_item : ∀ i it p,
    items w !! i = Some it → item_data it = Some p →
    (kind p = Some "diagnosis"
     ∧ action_seq p = Some (Z.of_nat (ac i))
     ∧ length (item_children it) = ac i
     ∧ children_are w (is_action_item i (item_text it)) (item_children it))
    ∨ (kind p = Some "action"
       ∧ ∃ g itg pg j,
           item_parent it = Some g
           ∧ items w !! g = Some itg
           ∧ item_data itg = Some pg
           ∧ kind pg = Some "diagnosis"
           ∧ item_children itg !! j = Some i);
  inv_fresh : ∀ g, length (items w) ≤ g → ac g = 0;
}.

(** [it'] is the item [it] after one user action; [acted] tells whether
    the action created an action record under this very item. *)
Definition item_step (acted : bool) (it it' : QTreeWidgetItem) : Prop :=
  item_text it' = item_text it
  ∧ item_parent it' = item_parent it
  ∧ item_children it `prefix_of` item_children it'
  ∧ if acted
    then ∃ p,
           item_data it = Some p
           ∧ item_data it' =
               Some (set_action_seq (default 0 (action_seq p) + 1)%Z p)
           ∧ ∃ a, item_children it' = item_children it ++ [a]
    else item_data it' = item_data it
         ∧ (is_Some (item_data it) → item_children it' = item_children it).


(** ** The specification's wording, for comparison with the code *)

(** The action title of the specification's [createAction]: built from the
    stored title of the diagnosis. *)
Definition action_title_from_stored_title : Prop :=
  ∀ (now : Timestamp) (w : MainWindow) (g : item_id) (p : Payload)
    (diagnosisTitle : string),
    action_target w = Some g →
    data w g = Some p →
    title p = Some diagnosisTitle →
    data (create_action_record now w).1 (length (items w)) ≫= title
    = Some (date_str now +:+ " " +:+ diagnosisTitle +:+ " - 조치"
            +:+ pretty (default 0 (action_seq p) + 1)%Z +:+ " 리포트").

(** The action title of the specification's scenario: dated like the
    diagnosis it belongs to. *)
Definition action_title_dated_like_diagnosis : Prop :=
  ∀ (es : list UserEvent) (d : string) (r g a : item_id) (i j : nat),
    let w := run es init in
    date_roots w !! d = Some r →
    children w r !! i = Some g →
    children w g !! j = Some a →
    data w a ≫= title
    = Some (d +:+ " 진단" +:+ pretty (Z.of_nat (S i)) +:+ " - 조치"
            +:+ pretty (Z.of_nat (S j)) +:+ " 리포트").

(** The layout of [renderAsText] in the words of the specification: a row
    is padded on the right with empty strings, cut to its first three
    columns and printed as [- col1 | col2 | col3]. *)
Definition three_columns (row : list string) : list string :=
  take 3 (row ++ replicate (3 - length row) "").

Definition row_text (col1 col2 col3 : string) : string :=
  "- " +:+ col1 +:+ " | " +:+ col2 +:+ " | " +:+ col3.

Definition render_row (row : list string) : string :=
  match three_columns row with
  | [col1; col2; col3] => row_text col1 col2 col3
  | _ => ""
  end.

Fixpoint render_rows (rows : list (list string)) : string :=
  match rows with
  | [] => ""
  | row :: rows => nl +:+ render_row row +:+ render_rows rows
  end.

Definition renderAsText (payload : Payload) : string :=
  "제목: " +:+ default "" (title payload) +:+ nl
  +:+ "종류: " +:+ default "" (kind payload) +:+ nl
  +:+ "생성시각: " +:+ default "" (created_at_full payload) +:+ nl
  +:+ nl
  +:+ "[요약]" +:+ nl
  +:+ default "" (text payload) +:+ nl
  +:+ nl
  +:+ "[표 데이터]"
  +:+ render_rows (default [] (table payload)).

(** ** Further notions: the shape of the tree *)

(** The dates of the diagnoses started during [es], oldest first. *)
Definition dates (es : list UserEvent) : list string :=
  omap (λ e, match e with
             | StartDiagClicked now => Some (date_str now)
             | _ => None
             end) es.

(** The distinct members of a list in the order of their first
    occurrence. *)
Definition first_seen (l : list string) : list string :=
  fold_left (λ acc x, if bool_decide (x ∈ acc) then acc else acc ++ [x]) l [].

(** Every item without payload is the registered top-level item of its
    date, every diagnosis hangs under such an item, and the top-level
    items carry the dates [ds] in this order. *)
Record Shape (ds : list string) (w : MainWindow) : Prop := {
  shape_root : ∀ i it,
    items w !! i = Some it → item_data it = None →
    date_roots w !! item_text it = Some i
    ∧ item_parent it = None
    ∧ i ∈ top_level w;
  shape_diag : ∀ i it p,
    items w !! i = Some it → item_data it = Some p →
    kind p = Some "diagnosis" →
    ∃ r itr, item_parent it = Some r
             ∧ items w !! r = Some itr
             ∧ item_data itr = None
             ∧ i ∈ item_children itr;
  shape_top : ∀ r, r ∈ top_level w →
    ∃ itr, items w !! r = Some itr ∧ item_data itr = None;
  shape_order : item_text_of w <$> top_level w = ds;
}.

(** ** The widgets of the report dialog *)

(** The part of a [QTableWidget] the dialog uses: its size and the text of
    the item set at a cell; a cell without item is absent from the map. *)
Record QTableWidget := {
  tw_rows : nat;
  tw_columns : nat;
  tw_items : gmap (nat * nat) string;
}.

(** [QTableWidget(rows, columns)]. *)
Definition QTableWidget_new (rows columns : nat) : QTableWidget :=
  {| tw_rows := rows; tw_columns := columns; tw_items := ∅ |}.

(** [t.setRowCount(n)]: the items of the rows that go away are dropped. *)
Definition setRowCount (n : nat) (t : QTableWidget) : QTableWidget :=
  {| tw_rows := n; tw_columns := tw_columns t;
     tw_items := filter (λ kv, kv.1.1 < n) (tw_items t) |}.

(** [t.setItem(r, c, QTableWidgetItem(v))]: ignored outside the table. *)
Definition setItem (r c : nat) (v : string) (t : QTableWidget) : QTableWidget :=
  if bool_decide (r < tw_rows t ∧ c < tw_columns t)
  then {| tw_rows := tw_rows t; tw_columns := tw_columns t;
          tw_items := <[(r, c) := v]> (tw_items t) |}
  else t.

(** [enumerate(l)]. *)
Definition enumerate {A : Type} (l : list A) : list (nat * A) :=
  imap (λ i x, (i, x)) l.

Definition _populate_table (rows : list (list string)) (t : QTableWidget)
  : QTableWidget :=
  let t := setRowCount (length rows) t in
  foldl (λ t '(r_idx, row),
           foldl (λ t '(c_idx, value), setItem r_idx c_idx value t)
             t (enumerate (take 3 row)))
    t (enumerate rows).

(** What [ReportDialog.__init__] builds from the payload. *)
Record ReportDialog := {
  dialog_payload : Payload;
  windowTitle : string;
  summary_view : string;
  table_widget : QTableWidget;
}.

Definition ReportDialog_init (payload : Payload) : ReportDialog :=
  {| dialog_payload := payload;
     windowTitle := default "리포트" (title payload);
     summary_view := default "" (text payload);
     table_widget :=
       _populate_table (default [] (table payload)) (QTableWidget_new 0 3) |}.

(** The text shown in a cell of the table: empty where no item is set. *)
Definition cell_text (t : QTableWidget) (r c : nat) : string :=
  default "" (tw_items t !! (r, c)).

(** ** The model of the vulnerability table *)

(** The result of a Python expression that may raise [IndexError]. *)
Inductive PyResult (A : Type) :=
  | Returned (a : A)
  | IndexError.
Arguments Returned {A} a.
Arguments IndexError {A}.

(** [l[i]] for a Python list and an int: a negative index counts from the
    end, an index outside [-len, len) raises. *)
Definition py_index {A : Type} (l : list A) (i : Z) : PyResult A :=
  let n := Z.of_nat (length l) in
  let j := if bool_decide (i < 0)%Z then (n + i)%Z else i in
  if bool_decide (0 ≤ j < n)%Z
  then match l !! Z.to_nat j with
       | Some x => Returned x
       | None => IndexError
       end
  else IndexError.

Module VulnerabilityTableModel.

Definition HEADERS : list string := ["코드"; "취약점명"; "상태"; "결과"].

(** A [QModelIndex]: valid when it belongs to a model and its row and
    column are not negative. *)
Record QModelIndex := {
  row : Z;
  column : Z;
  of_model : bool;
}.

Definition isValid (index : QModelIndex) : bool :=
  of_model index && bool_decide (0 ≤ row index)%Z
  && bool_decide (0 ≤ column index)%Z.

(** [QModelIndex()]. *)
Definition no_index : QModelIndex :=
  {| row := -1; column := -1; of_model := false |}.

Definition DisplayRole : Z := 0.

Inductive Orientation := Horizontal | Vertical.


Definition columnCount (parent : QModelIndex) : Z :=
  if isValid parent then 0%Z else Z.of_nat (length HEADERS).

Definition data (_rows : list (list string)) (index : QModelIndex) (role : Z)
  : PyResult (option string) :=
  if negb (isValid index) || negb (bool_decide (role = DisplayRole))
  then Returned None
  else
    match py_index _rows (row index) with
    | IndexError => IndexError
    | Returned r =>
        match py_index r (column index) with
        | IndexError => IndexError
        | Returned v => Returned (Some v)
        end
    end.

Definition headerData (section : Z) (orientation : Orientation) (role : Z)
  : PyResult (option string) :=
  if negb (bool_decide (role = DisplayRole)) then Returned None
  else
    match orientation with
    | Horizontal =>
        match py_index HEADERS section with
        | IndexError => IndexError
        | Returned h => Returned (Some h)
        end
    | Vertical => Returned (Some (pretty (section + 1)%Z))
    end.

End VulnerabilityTableModel.


(** The text [on_tree_item_clicked] puts in the log view for an item with
    the given payload, if any. *)
Definition log_text (o : option Payload) : string :=
  match o with
  | None => "날짜 노드입니다. 하위 진단/조치 항목을 선택하세요."
  | Some payload =>
      "[" +:+ default "" (created_time payload) +:+ "]" +:+ nl
      +:+ default "" (text payload)
  end.

(** ** Frame lemmas *)

Section Frames.
Variables (w : MainWindow) (i : item_id).

Lemma on_tree_item_clicked_items : items (on_tree_item_clicked i w) = items w.
Proof. unfold on_tree_item_clicked. by destruct (data w i). Qed.

Lemma on_tree_item_clicked_top_level :
  top_level (on_tree_item_clicked i w) = top_level w.
Proof. unfold on_tree_item_clicked. by destruct (data w i). Qed.

Lemma on_tree_item_clicked_current_item :
  current_item (on_tree_item_clicked i w) = current_item w.
Proof. unfold on_tree_item_clicked. by destruct (data w i). Qed.

Lemma on_tree_item_clicked_date_roots :
  date_roots (on_tree_item_clicked i w) = date_roots w.
Proof. unfold on_tree_item_clicked. by destruct (data w i). Qed.

Lemma on_tree_item_clicked_diag_seq_by_date :
  diag_seq_by_date (on_tree_item_clicked i w) = diag_seq_by_date w.
Proof. unfold on_tree_item_clicked. by destruct (data w i). Qed.
End Frames.

Lemma alter_snoc {A} (f : A → A) (l : list A) (x : A) (n : nat) :
  length l = n → alter f n (l ++ [x]) = l ++ [f x].
Proof.
  intros <-. replace (length l) with (length l + 0) by lia.
  by rewrite alter_app_r.
Qed.

Lemma alter_snoc_lt {A} (f : A → A) (l : list A) (x : A) (i : nat) :
  i < length l → alter f i (l ++ [x]) = alter f i l ++ [x].
Proof. apply alter_app_l. Qed.

(** ** What the two creating operations do to the store *)

Lemma create_action_record_items now w g itg p :
  _resolve_selected_diagnosis w = Some g →
  items w !! g = Some itg →
  item_data itg = Some p →
  items (create_action_record now w).1 =
    alter (diag_after_action (length (items w)) p) g (items w)
    ++ [ new_action_item now g (item_text itg)
           (default 0 (action_seq p) + 1)%Z ].
Proof.
  intros Hres Hg Hp.
  unfold create_action_record. rewrite Hres.
  unfold data. rewrite Hg. simpl. rewrite Hp.
  unfold construct. simpl.
  rewrite on_tree_item_clicked_items.
  unfold setData, addChild, setExpanded, setCurrentItem, item_text_of.
  simpl. rewrite list_lookup_alter_eq, Hg. simpl.
  assert (g < length (items w)) by (by eapply lookup_lt_Some).
  rewrite !length_alter.
  rewrite (alter_snoc _ _ _ (length (items w))) by (by rewrite length_alter).
  rewrite (alter_snoc _ _ _ (length (items w))) by (by rewrite length_alter).
  rewrite !alter_snoc_lt by (by rewrite ?length_alter).
  by rewrite !list_alter_alter_eq.
Qed.

Lemma create_action_record_frame now w g itg p :
  _resolve_selected_diagnosis w = Some g →
  items w !! g = Some itg →
  item_data itg = Some p →
  let w' := (create_action_record now w).1 in
  top_level w' = top_level w
  ∧ current_item w' = Some (length (items w))
  ∧ date_roots w' = date_roots w
  ∧ diag_seq_by_date w' = diag_seq_by_date w
  ∧ (create_action_record now w).2 = [].
Proof.
  intros Hres Hg Hp. simpl.
  unfold create_action_record. rewrite Hres.
  unfold data. rewrite Hg. simpl. rewrite Hp.
  unfold construct. simpl.
  rewrite on_tree_item_clicked_top_level, on_tree_item_clicked_current_item,
    on_tree_item_clicked_date_roots, on_tree_item_clicked_diag_seq_by_date.
  simpl. by rewrite length_alter.
Qed.

Lemma create_action_record_fail now w :
  action_target w = None →
  ∃ msg, create_action_record now w = (w, [msg]).
Proof.
  unfold action_target, create_action_record.
  destruct (_resolve_selected_diagnosis w) as [g|]; [|by eauto].
  destruct (data w g); [done | by eauto].
Qed.

Lemma action_target_Some w g :
  action_target w = Some g →
  _resolve_selected_diagnosis w = Some g
  ∧ ∃ itg p, items w !! g = Some itg ∧ item_data itg = Some p.
Proof.
  unfold action_target.
  destruct (_resolve_selected_diagnosis w) as [g'|]; [|done].
  destruct (data w g') as [p|] eqn:Hd; [|done].
  intros [= ->]. split; [done|].
  unfold data in Hd. destruct (items w !! g) as [itg|]; [|done].
  simpl in Hd. eauto.
Qed.

Lemma create_diagnosis_record_old_root now w r :
  date_roots w !! date_str now = Some r →
  r < length (items w) →
  let w' := create_diagnosis_record now w in
  items w' =
    alter (root_after_diag (length (items w))) r (items w)
    ++ [ new_diag_item now r (next_diag_seq (date_str now) w) ]
  ∧ top_level w' = top_level w
  ∧ current_item w' = Some (length (items w))
  ∧ date_roots w' = date_roots w
  ∧ diag_seq_by_date w' =
      <[date_str now := next_diag_seq (date_str now) w]> (diag_seq_by_date w).
Proof.
  intros Hr Hlt. simpl.
  unfold create_diagnosis_record, _ensure_date_root. rewrite Hr.
  unfold construct. simpl.
  rewrite on_tree_item_clicked_items, on_tree_item_clicked_top_level,
    on_tree_item_clicked_current_item, on_tree_item_clicked_date_roots,
    on_tree_item_clicked_diag_seq_by_date.
  simpl. split_and!; try done.
  rewrite (alter_snoc _ _ _ (length (items w))) by done.
  rewrite (alter_snoc _ _ _ (length (items w))) by done.
  rewrite !alter_snoc_lt by (by rewrite ?length_alter).
  by rewrite !list_alter_alter_eq.
Qed.

Lemma create_diagnosis_record_new_root now w :
  date_roots w !! date_str now = None →
  let n := length (items w) in
  let w' := create_diagnosis_record now w in
  items w' =
    items w ++ [ root_after_diag (S n) (new_item (date_str now));
                 new_diag_item now n (next_diag_seq (date_str now) w) ]
  ∧ top_level w' = top_level w ++ [n]
  ∧ current_item w' = Some (S n)
  ∧ date_roots w' = <[date_str now := n]> (date_roots w)
  ∧ diag_seq_by_date w' =
      <[date_str now := next_diag_seq (date_str now) w]> (diag_seq_by_date w).
Proof.
  intros Hr. simpl.
  unfold create_diagnosis_record, _ensure_date_root. rewrite Hr.
  unfold construct, next_diag_seq. simpl.
  destruct (diag_seq_by_date w !! date_str now) as [k|] eqn:Hk; simpl;
    rewrite on_tree_item_clicked_items, on_tree_item_clicked_top_level,
      on_tree_item_clicked_current_item, on_tree_item_clicked_date_roots,
      on_tree_item_clicked_diag_seq_by_date; simpl;
    rewrite ?Hk, ?lookup_insert_eq, ?insert_insert_eq, ?length_app; simpl;
    (split_and!; try done; try (f_equal; lia));
    rewrite <- app_assoc; simpl;
    rewrite !alter_app_r_alt by lia;
    replace (length (items w) + 1 - length (items w)) with 1 by lia;
    replace (length (items w) - length (items w)) with 0 by lia;
    simpl; unfold root_after_diag, new_diag_item;
    by replace (length (items w) + 1) with (S (length (items w))) by lia.
Qed.

(** ** The invariant of the record tree *)

Lemma Inv_ext dc dc' ac ac' w :
  (∀ d, dc d = dc' d) → (∀ g, ac g = ac' g) → Inv dc ac w → Inv dc' ac' w.
Proof.
  intros Hd Ha [H1 H2 H3 H4 H5]. split.
  - done.
  - intros d. rewrite <- Hd. apply H2.
  - intros d. rewrite <- Hd. apply H3.
  - intros i. rewrite <- Ha. apply H4.
  - intros g. rewrite <- Ha. apply H5.
Qed.

Lemma Inv_init : Inv (λ _, 0) (λ _, 0) init.
Proof.
  split; simpl; try done. intros d Hd. lia.
Qed.

(** An operation that leaves the store and the two dictionaries alone
    keeps the invariant. *)
Lemma Inv_same_store dc ac w w' :
  items w' = items w →
  date_roots w' = date_roots w →
  diag_seq_by_date w' = diag_seq_by_date w →
  (∀ c, current_item w' = Some c → c < length (items w)) →
  Inv dc ac w → Inv dc ac w'.
Proof.
  intros Hi Hr Hs Hc [H1 H2 H3 H4 H5].
  split; unfold children_are in *; by rewrite ?Hi, ?Hr, ?Hs.
Qed.

(** *** Lookups in a store after one item was altered and one added *)

Section StoreStep.
Context {A : Type} (F : A → A) (q : nat) (l : list A) (x : A).

Lemma lookup_alter_snoc_eq z :
  l !! q = Some z → (alter F q l ++ [x]) !! q = Some (F z).
Proof.
  intros Hz. rewrite lookup_app_l.
  - by rewrite list_lookup_alter_eq, Hz.
  - rewrite length_alter. by eapply lookup_lt_Some.
Qed.

Lemma lookup_alter_snoc_ne i y :
  i ≠ q → l !! i = Some y → (alter F q l ++ [x]) !! i = Some y.
Proof.
  intros Hne Hy. rewrite lookup_app_l.
  - by rewrite list_lookup_alter_ne.
  - rewrite length_alter. by eapply lookup_lt_Some.
Qed.

Lemma lookup_alter_snoc_new : (alter F q l ++ [x]) !! length l = Some x.
Proof.
  rewrite lookup_app_r; rewrite length_alter; [|lia].
  by rewrite Nat.sub_diag.
Qed.

Lemma lookup_alter_snoc_inv i y :
  (alter F q l ++ [x]) !! i = Some y →
  (i = q ∧ ∃ z, l !! q = Some z ∧ y = F z)
  ∨ (i = length l ∧ y = x)
  ∨ (i ≠ q ∧ l !! i = Some y).
Proof.
  intros H. apply lookup_app_Some in H as [H|[Hge H]].
  - destruct (decide (i = q)) as [->|Hne].
    + left. split; [done|]. rewrite list_lookup_alter_eq in H.
      destruct (l !! q) as [z|]; [|done]. exists z. simpl in H.
      split; congruence.
    + right. right. split; [done|]. by rewrite list_lookup_alter_ne in H.
  - rewrite length_alter in Hge, H. right. left.
    destruct (i - length l) as [|k] eqn:Hk; simpl in H; [|done].
    split; [lia | congruence].
Qed.
End StoreStep.

(** *** The invariant is kept by every user action *)

Lemma data_Some w i p :
  data w i = Some p ↔ ∃ it, items w !! i = Some it ∧ item_data it = Some p.
Proof.
  unfold data. destruct (items w !! i) as [it|]; simpl.
  - split; [by eauto | by intros (? & [= <-] & ?)].
  - split; [done | by intros (? & ? & ?)].
Qed.

Lemma resolve_in_tree dc ac w g :
  Inv dc ac w → _resolve_selected_diagnosis w = Some g →
  ∃ itg p, items w !! g = Some itg ∧ item_data itg = Some p
           ∧ kind p = Some "diagnosis".
Proof.
  intros HI. unfold _resolve_selected_diagnosis.
  destruct (current_item w) as [c|]; [|done].
  destruct (data w c) as [pc|] eqn:Hd; [|done].
  apply data_Some in Hd as (itc & Hc & Hpc).
  case_bool_decide as Hk.
  - intros [= <-]. by eauto.
  - case_bool_decide as Hk'; [|done].
    destruct (parent w c) as [q|] eqn:Hq; [|done]. intros [= <-].
    unfold parent in Hq. rewrite Hc in Hq. simpl in Hq.
    destruct (inv_item _ _ _ HI c itc pc Hc Hpc)
      as [(? & _)|(_ & g & itg & pg & j & Hg & ? & ? & ? & _)]; [done|].
    assert (g = q) as -> by congruence. by eauto.
Qed.

Lemma is_diag_item_after_action d r k n p it :
  item_data it = Some p →
  is_diag_item d r k it → is_diag_item d r k (diag_after_action n p it).
Proof.
  intros Hp (Ht & Hq & p' & Hp' & Hk & Hti).
  assert (p' = p) as -> by congruence.
  split_and!; try done. by exists (set_action_seq (default 0 (action_seq p) + 1)%Z p).
Qed.

Lemma Inv_create_action_record dc ac now w g :
  Inv dc ac w →
  action_target w = Some g →
  Inv dc (λ i, ac i + if bool_decide (i = g) then 1 else 0)
    (create_action_record now w).1.
Proof.
  intros HI Ht.
  apply action_target_Some in Ht as (Hres & itg & p & Hg & Hp).
  destruct (resolve_in_tree _ _ _ _ HI Hres) as (itg' & p' & Hg' & Hp' & Hk).
  assert (itg' = itg) as -> by congruence.
  assert (p' = p) as -> by congruence. clear Hg' Hp'.
  pose proof (create_action_record_items now w g itg p Hres Hg Hp) as Hitems.
  destruct (create_action_record_frame now w g itg p Hres Hg Hp)
    as (_ & Hcur & Hroots & Hseq & _).
  set (w' := (create_action_record now w).1) in *.
  set (n := length (items w)) in *.
  assert (g < n) as Hlt by (by eapply lookup_lt_Some).
  destruct (inv_item _ _ _ HI g itg p Hg Hp)
    as [(_ & Hac & Hlen & Hch)|(Hk' & _)]; [|congruence].
  assert (default 0 (action_seq p) + 1 = Z.of_nat (S (ac g)))%Z as Hnext
    by (rewrite Hac; simpl; lia).
  rewrite Hnext in Hitems.
  (* items that carry a payload of kind action are not [g] *)
  assert (∀ c itc pc, items w !! c = Some itc → item_data itc = Some pc →
            kind pc = Some "action" → c ≠ g) as Hnotg.
  { intros c itc pc Hc Hpc Hkc ->. congruence. }
  split.
  - intros c. rewrite Hcur, Hitems. intros [= <-].
    rewrite length_app, length_alter. simpl. lia.
  - intros d Hd. rewrite Hroots, Hseq. by apply (inv_absent _ _ _ HI).
  - intros d Hd.
    destruct (inv_root _ _ _ HI d Hd)
      as (r & itr & Hr & Hir & Htx & Hda & Hpa & Hln & Hsq & Hcs).
    assert (r ≠ g) by (intros ->; congruence).
    exists r, itr. rewrite Hroots, Hseq, Hitems.
    split_and!; try done.
    { by rewrite ?Hitems; apply lookup_alter_snoc_ne. }
    intros k c Hkc. destruct (Hcs k c Hkc) as (itc & Hc & Hdi).
    destruct (decide (c = g)) as [->|Hne].
    + assert (itc = itg) as -> by congruence.
      eexists. split; [by rewrite ?Hitems; apply lookup_alter_snoc_eq|].
      by apply is_diag_item_after_action.
    + exists itc. split; [by rewrite ?Hitems; apply lookup_alter_snoc_ne | done].
  - intros i it' pi. rewrite Hitems. intros Hi Hpi.
    apply lookup_alter_snoc_inv in Hi
      as [(-> & itg0 & Hg0 & ->)|[(-> & ->)|(Hne & Hi)]].
    + (* the diagnosis itself *)
      assert (itg0 = itg) as -> by congruence.
      simpl in Hpi. injection Hpi as <-. left.
      rewrite bool_decide_eq_true_2 by done. simpl.
      split_and!; try done.
      { f_equal. lia. }
      { rewrite length_app. simpl. lia. }
      intros k c Hkc. apply lookup_app_Some in Hkc as [Hkc|[Hge Hkc]].
      * destruct (Hch k c Hkc) as (itc & Hc & Hai). exists itc.
        split; [|done]. rewrite ?Hitems; apply lookup_alter_snoc_ne; [|done].
        destruct Hai as (_ & _ & _ & pc & dd & Hpc & Hkc' & _).
        by eapply Hnotg.
      * destruct (k - length (item_children itg)) as [|?] eqn:Hkk;
          simpl in Hkc; [|done]. injection Hkc as <-.
        exists (new_action_item now g (item_text itg) (Z.of_nat (S (ac g)))).
        split; [by rewrite ?Hitems; apply lookup_alter_snoc_new|].
        assert (S k = S (ac g)) as -> by lia.
        split_and!; try done. by eexists _, (date_str now).
    + (* the new action *)
      simpl in Hpi. injection Hpi as <-. right. split; [done|].
      exists g, (diag_after_action n p itg),
        (set_action_seq (default 0 (action_seq p) + 1)%Z p),
        (length (item_children itg)).
      split_and!; try done.
      { by rewrite ?Hitems; apply lookup_alter_snoc_eq. }
      simpl. by rewrite lookup_app_r, Nat.sub_diag by lia.
    + (* any other item *)
      rewrite bool_decide_eq_false_2, Nat.add_0_r by done.
      destruct (inv_item _ _ _ HI i it' pi Hi Hpi)
        as [(? & ? & ? & Hci)|(? & q & itq & pq & j & ? & Hq & Hpq & ? & Hj)].
      * left. split_and!; try done.
        intros k c Hkc. destruct (Hci k c Hkc) as (itc & Hc & Hai).
        exists itc. split; [|done]. rewrite ?Hitems; apply lookup_alter_snoc_ne; [|done].
        destruct Hai as (_ & _ & _ & pc & dd & Hpc & Hkc' & _).
        by eapply Hnotg.
      * right. split; [done|].
        destruct (decide (q = g)) as [->|Hqg].
        -- assert (itq = itg) as -> by congruence.
           assert (pq = p) as -> by congruence.
           exists g, (diag_after_action n p itg),
             (set_action_seq (default 0 (action_seq p) + 1)%Z p), j.
           split_and!; try done.
           { by rewrite ?Hitems; apply lookup_alter_snoc_eq. }
           simpl. by apply lookup_app_l_Some.
        -- exists q, itq, pq, j. split_and!; try done.
           by rewrite ?Hitems; apply lookup_alter_snoc_ne.
  - intros i. rewrite Hitems, length_app, length_alter. simpl. intros Hi.
    rewrite bool_decide_eq_false_2 by (fold n in Hi; lia).
    rewrite (inv_fresh _ _ _ HI) by (fold n in Hi |- *; lia). done.
Qed.

Lemma is_diag_item_new now r k :
  is_diag_item (date_str now) r k (new_diag_item now r (Z.of_nat k)).
Proof. split_and!; try done. by eexists. Qed.

Lemma Inv_create_diagnosis_record dc ac now w :
  Inv dc ac w →
  Inv (λ d, dc d + if bool_decide (date_str now = d) then 1 else 0) ac
    (create_diagnosis_record now w).
Proof.
  intros HI.
  set (d0 := date_str now).
  set (n := length (items w)).
  (* items that carry a payload are not date items *)
  assert (∀ r itr c itc pc, items w !! r = Some itr → item_data itr = None →
            items w !! c = Some itc → item_data itc = Some pc → c ≠ r)
    as Hnotr by (intros r itr c itc pc ???? ->; congruence).
  destruct (date_roots w !! d0) as [r|] eqn:Hroot.
  - (* the date item exists *)
    destruct (Nat.eq_dec (dc d0) 0) as [Hz|Hnz].
    { apply (inv_absent _ _ _ HI) in Hz as [Hz _]. congruence. }
    destruct (inv_root _ _ _ HI d0 ltac:(lia))
      as (r' & itr & Hr & Hir & Htx & Hda & Hpa & Hln & Hsq & Hcs).
    assert (r' = r) as -> by congruence.
    assert (r < n) as Hlt by (by eapply lookup_lt_Some).
    destruct (create_diagnosis_record_old_root now w r Hroot Hlt)
      as (Hitems & _ & Hcur & Hroots & Hseq).
    assert (next_diag_seq d0 w = Z.of_nat (S (dc d0))) as Hnext
      by (unfold next_diag_seq; rewrite Hsq; simpl; lia).
    fold d0 n in Hitems, Hseq. rewrite Hnext in Hitems, Hseq.
    split.
    + intros c. rewrite Hcur, Hitems. intros [= <-].
      rewrite length_app, length_alter. simpl. lia.
    + intros d Hd. case_bool_decide as Hdd; [lia|].
      rewrite Hroots, Hseq, lookup_insert_ne by done.
      apply (inv_absent _ _ _ HI). lia.
    + intros d Hd. case_bool_decide as Hdd.
      * subst d. exists r, (root_after_diag n itr).
        rewrite Hroots, Hseq, lookup_insert_eq.
        split_and!; try done.
        { by rewrite Hitems; apply lookup_alter_snoc_eq. }
        { simpl. rewrite length_app. simpl. lia. }
        { f_equal. lia. }
        intros k c Hkc. simpl in Hkc.
        apply lookup_app_Some in Hkc as [Hkc|[Hge Hkc]].
        -- destruct (Hcs k c Hkc) as (itc & Hc & Hdi). exists itc.
           split; [|done]. rewrite Hitems. apply lookup_alter_snoc_ne; [|done].
           destruct Hdi as (_ & _ & pc & Hpc & _). by eapply Hnotr.
        -- destruct (k - length (item_children itr)) as [|?] eqn:Hkk;
             simpl in Hkc; [|done]. injection Hkc as <-.
           exists (new_diag_item now r (Z.of_nat (S (dc d0)))).
           split; [by rewrite Hitems; apply lookup_alter_snoc_new|].
           assert (S k = S (dc d0)) as -> by lia.
           apply is_diag_item_new.
      * rewrite Nat.add_0_r in Hd |- *.
        destruct (inv_root _ _ _ HI d Hd)
          as (r' & itr' & Hr' & Hir' & Htx' & Hda' & Hpa' & Hln' & Hsq' & Hcs').
        assert (r' ≠ r) by (intros ->; congruence).
        exists r', itr'. rewrite Hroots, Hseq, lookup_insert_ne by done.
        split_and!; try done.
        { by rewrite Hitems; apply lookup_alter_snoc_ne. }
        intros k c Hkc. destruct (Hcs' k c Hkc) as (itc & Hc & Hdi).
        exists itc. split; [|done]. rewrite ?Hitems.
        apply lookup_alter_snoc_ne; [|done].
        destruct Hdi as (_ & _ & pc & Hpc & _). by eapply Hnotr.
    + intros i it' pi. rewrite Hitems. intros Hi Hpi.
      apply lookup_alter_snoc_inv in Hi
        as [(-> & itr0 & Hr0 & ->)|[(-> & ->)|(Hne & Hi)]].
      * assert (itr0 = itr) as -> by congruence. simpl in Hpi. congruence.
      * simpl in Hpi. injection Hpi as <-. left.
        rewrite (inv_fresh _ _ _ HI) by done. split_and!; try done.
      * destruct (inv_item _ _ _ HI i it' pi Hi Hpi)
          as [(? & ? & ? & Hci)|(? & q & itq & pq & j & ? & Hq & Hpq & ? & Hj)].
        -- left. split_and!; try done.
           intros k c Hkc. destruct (Hci k c Hkc) as (itc & Hc & Hai).
           exists itc. split; [|done]. rewrite ?Hitems.
           apply lookup_alter_snoc_ne; [|done].
           destruct Hai as (_ & _ & _ & pc & dd & Hpc & _). by eapply Hnotr.
        -- right. split; [done|]. exists q, itq, pq, j.
           split_and!; try done. rewrite ?Hitems.
           apply lookup_alter_snoc_ne; [|done]. by eapply Hnotr.
    + intros i. rewrite Hitems, length_app, length_alter. simpl. intros Hi.
      apply (inv_fresh _ _ _ HI). fold n in Hi. lia.
  - (* the date item is created *)
    destruct (Nat.eq_dec (dc d0) 0) as [Hz|Hnz]; cycle 1.
    { destruct (inv_root _ _ _ HI d0 ltac:(lia)) as (r & itr & Hr & _).
      congruence. }
    destruct (inv_absent _ _ _ HI d0 Hz) as [_ Hsq].
    destruct (create_diagnosis_record_new_root now w Hroot)
      as (Hitems & _ & Hcur & Hroots & Hseq).
    assert (next_diag_seq d0 w = Z.of_nat 1) as Hnext
      by (unfold next_diag_seq; by rewrite Hsq).
    fold d0 n in Hitems, Hseq, Hroots, Hcur. rewrite Hnext in Hitems, Hseq.
    assert (∀ i it, items w !! i = Some it →
              items (create_diagnosis_record now w) !! i = Some it) as Hold.
    { intros i it Hi. rewrite Hitems. by apply lookup_app_l_Some. }
    assert (items (create_diagnosis_record now w) !! n
            = Some (root_after_diag (S n) (new_item d0))) as Hn.
    { rewrite Hitems, lookup_app_r by done. by rewrite Nat.sub_diag. }
    assert (items (create_diagnosis_record now w) !! S n
            = Some (new_diag_item now n (Z.of_nat 1))) as HSn.
    { rewrite Hitems, lookup_app_r by (fold n; lia).
      by replace (S n - length (items w)) with 1 by (fold n; lia). }
    split.
    + intros c. rewrite Hcur, Hitems. intros [= <-].
      rewrite length_app. simpl. fold n. lia.
    + intros d Hd. case_bool_decide as Hdd; [lia|].
      rewrite Hroots, Hseq, !lookup_insert_ne by done.
      apply (inv_absent _ _ _ HI). lia.
    + intros d Hd. case_bool_decide as Hdd.
      * subst d. exists n, (root_after_diag (S n) (new_item d0)).
        rewrite Hroots, Hseq, !lookup_insert_eq, Hz.
        split_and!; try done.
        intros k c Hkc. destruct k as [|k]; simpl in Hkc; [|done].
        injection Hkc as <-. eexists. split; [exact HSn|].
        apply is_diag_item_new.
      * rewrite Nat.add_0_r in Hd |- *.
        destruct (inv_root _ _ _ HI d Hd)
          as (r' & itr' & Hr' & Hir' & Htx' & Hda' & Hpa' & Hln' & Hsq' & Hcs').
        exists r', itr'. rewrite Hroots, Hseq, !lookup_insert_ne by done.
        split_and!; try done; [by apply Hold|].
        intros k c Hkc. destruct (Hcs' k c Hkc) as (itc & Hc & Hdi).
        exists itc. split; [by apply Hold | done].
    + intros i it' pi. rewrite Hitems. intros Hi Hpi.
      apply lookup_app_Some in Hi as [Hi|[Hge Hi]].
      * destruct (inv_item _ _ _ HI i it' pi Hi Hpi)
          as [(? & ? & ? & Hci)|(? & q & itq & pq & j & ? & Hq & Hpq & ? & Hj)].
        -- left. split_and!; try done.
           intros k c Hkc. destruct (Hci k c Hkc) as (itc & Hc & Hai).
           exists itc. split; [by apply Hold | done].
        -- right. split; [done|]. exists q, itq, pq, j.
           split_and!; try done. rewrite <- Hitems. by apply Hold.
      * destruct (i - length (items w)) as [|[|?]] eqn:Hk; simpl in Hi;
          [| |done]; injection Hi as <-; simpl in Hpi; [done|].
        injection Hpi as <-. left.
        rewrite (inv_fresh _ _ _ HI) by done. split_and!; try done.
    + intros i. rewrite Hitems, length_app. simpl. intros Hi.
      apply (inv_fresh _ _ _ HI). lia.
Qed.

Lemma Inv_handle dc ac e w :
  Inv dc ac w →
  Inv (λ d, dc d + if starts_on d e then 1 else 0)
      (λ g, ac g + if acts_on g w e then 1 else 0)
      (handle e w).1.
Proof.
  intros HI. destruct e as [now|now|item|sel|saves]; simpl.
  - eapply Inv_ext; [| |by apply Inv_create_diagnosis_record]; simpl; [done|].
    intros g. lia.
  - destruct (action_target w) as [g|] eqn:Ht.
    + eapply Inv_ext; [| |by apply Inv_create_action_record]; simpl.
      * intros d. lia.
      * intros i. by repeat case_bool_decide; simplify_eq.
    + destruct (create_action_record_fail now w Ht) as [msg ->]. simpl.
      eapply Inv_ext; [| |done]; simpl; intros; lia.
  - eapply Inv_ext with (dc := dc) (ac := ac); [intros; lia..|].
    unfold in_tree. case_bool_decide; simpl; [|done].
    eapply Inv_same_store; [..|done].
    + by rewrite on_tree_item_clicked_items.
    + by rewrite on_tree_item_clicked_date_roots.
    + by rewrite on_tree_item_clicked_diag_seq_by_date.
    + rewrite on_tree_item_clicked_current_item. simpl. by intros c [= <-].
  - eapply Inv_ext with (dc := dc) (ac := ac); [intros; lia..|].
    destruct sel as [item|].
    + unfold in_tree. case_bool_decide; simpl; [|done].
      eapply Inv_same_store; [..|done]; simpl; try done. by intros c [= <-].
    + simpl. eapply Inv_same_store; [..|done]; by simpl.
  - eapply Inv_ext; [| |done]; simpl; intros; lia.
Qed.

Lemma run_snoc es e w : run (es ++ [e]) w = (handle e (run es w)).1.
Proof. unfold run. by rewrite fold_left_app. Qed.

Lemma diag_count_snoc d es e :
  diag_count d (es ++ [e]) = diag_count d es + if starts_on d e then 1 else 0.
Proof.
  unfold diag_count. rewrite List.filter_app, length_app. simpl.
  by destruct (starts_on d e).
Qed.

Lemma action_count_snoc g es e w :
  action_count g (es ++ [e]) w
  = action_count g es w + if acts_on g (run es w) e then 1 else 0.
Proof.
  revert w. induction es as [|e' es IH]; intros w; simpl.
  - lia.
  - rewrite IH. unfold run. simpl. lia.
Qed.

(** The invariant holds after every sequence of user actions. *)
Lemma Inv_run es :
  Inv (λ d, diag_count d es) (λ g, action_count g es init) (run es init).
Proof.
  induction es as [|e es IH] using rev_ind.
  - apply Inv_init.
  - rewrite run_snoc.
    eapply Inv_ext; [| |by apply Inv_handle, IH]; simpl.
    + intros d. by rewrite diag_count_snoc.
    + intros g. by rewrite action_count_snoc.
Qed.

(** *** What one user action does to an item already in the store *)

Lemma item_step_refl it : item_step false it it.
Proof. by split_and!. Qed.

Lemma create_diagnosis_record_root_in_tree dc ac w d r :
  Inv dc ac w → date_roots w !! d = Some r →
  ∃ itr, items w !! r = Some itr ∧ item_data itr = None ∧ item_text itr = d.
Proof.
  intros HI Hr.
  destruct (Nat.eq_dec (dc d) 0) as [Hz|Hnz].
  { apply (inv_absent _ _ _ HI) in Hz as [Hz _]. congruence. }
  destruct (inv_root _ _ _ HI d ltac:(lia)) as (r' & itr & Hr' & Hir & ? & ? & _).
  assert (r' = r) as -> by congruence. by eauto.
Qed.

Lemma handle_date_roots dc ac e w d r :
  Inv dc ac w →
  date_roots w !! d = Some r → date_roots (handle e w).1 !! d = Some r.
Proof.
  intros HI Hr. destruct e as [now|now|item|sel|saves]; simpl.
  - destruct (date_roots w !! date_str now) as [r0|] eqn:Hroot.
    + destruct (create_diagnosis_record_root_in_tree _ _ _ _ _ HI Hroot)
        as (itr & Hir & _).
      apply lookup_lt_Some in Hir.
      destruct (create_diagnosis_record_old_root now w r0 Hroot Hir)
        as (_ & _ & _ & Hroots & _). by rewrite Hroots.
    + destruct (create_diagnosis_record_new_root now w Hroot)
        as (_ & _ & _ & Hroots & _).
      rewrite Hroots, lookup_insert_ne; [done|]. intros Heq. congruence.
  - destruct (action_target w) as [g|] eqn:Ht.
    + apply action_target_Some in Ht as (Hres & itg & p & Hg & Hp).
      destruct (create_action_record_frame now w g itg p Hres Hg Hp)
        as (_ & _ & Hroots & _). by rewrite Hroots.
    + by destruct (create_action_record_fail now w Ht) as [msg ->].
  - unfold in_tree. case_bool_decide; simpl; [|done].
    by rewrite on_tree_item_clicked_date_roots.
  - destruct sel as [item|]; [|done].
    unfold in_tree. by case_bool_decide.
  - done.
Qed.

Lemma handle_item_step dc ac e w i it :
  Inv dc ac w →
  items w !! i = Some it →
  ∃ it', items (handle e w).1 !! i = Some it'
         ∧ item_step (acts_on i w e) it it'.
Proof.
  intros HI Hi. destruct e as [now|now|item|sel|saves]; simpl.
  - destruct (date_roots w !! date_str now) as [r|] eqn:Hroot.
    + destruct (create_diagnosis_record_root_in_tree _ _ _ _ _ HI Hroot)
        as (itr & Hir & Hda & _).
      pose proof (lookup_lt_Some _ _ _ Hir) as Hlt.
      destruct (create_diagnosis_record_old_root now w r Hroot Hlt)
        as (Hitems & _). rewrite Hitems.
      destruct (decide (i = r)) as [->|Hne].
      * assert (itr = it) as -> by congruence.
        eexists. split; [by apply lookup_alter_snoc_eq|].
        split_and!; try done.
        -- simpl. by apply prefix_app_r.
        -- rewrite Hda. by intros [? ?].
      * exists it. split; [by apply lookup_alter_snoc_ne|].
        apply item_step_refl.
    + destruct (create_diagnosis_record_new_root now w Hroot) as (Hitems & _).
      rewrite Hitems. exists it. split; [by apply lookup_app_l_Some | apply item_step_refl].
  - destruct (action_target w) as [g|] eqn:Ht.
    + apply action_target_Some in Ht as (Hres & itg & p & Hg & Hp).
      rewrite (create_action_record_items now w g itg p Hres Hg Hp).
      destruct (decide (i = g)) as [->|Hne].
      * assert (itg = it) as -> by congruence.
        rewrite bool_decide_eq_true_2 by done.
        eexists. split; [by apply lookup_alter_snoc_eq|].
        split_and!; try done.
        -- simpl. by apply prefix_app_r.
        -- exists p. split_and!; try done. by eexists.
      * rewrite bool_decide_eq_false_2 by congruence.
        exists it. split; [by apply lookup_alter_snoc_ne|].
        apply item_step_refl.
    + destruct (create_action_record_fail now w Ht) as [msg ->]. simpl.
      exists it. split; [done | apply item_step_refl].
  - exists it. split; [|apply item_step_refl].
    unfold in_tree. case_bool_decide; simpl; [|done].
    by rewrite on_tree_item_clicked_items.
  - exists it. split; [|apply item_step_refl].
    destruct sel as [item|]; [|done].
    unfold in_tree. by case_bool_decide.
  - exists it. split; [done | apply item_step_refl].
Qed.

(** The accessors of the store, after one user action. *)
Lemma handle_children_prefix dc ac e w i :
  Inv dc ac w → children w i `prefix_of` children (handle e w).1 i.
Proof.
  intros HI. unfold children.
  destruct (items w !! i) as [it|] eqn:Hi; simpl; [|apply prefix_nil].
  destruct (handle_item_step _ _ e _ _ _ HI Hi) as (it' & -> & _ & _ & Hpre & _).
  done.
Qed.

(** ** A sample session *)

Example run_example :
  let w := run [ StartDiagClicked (timestamp "2024-01-01" "09:00:00");
                 StartDiagClicked (timestamp "2024-01-01" "09:05:00");
                 CurrentItemChanged (Some 1);
                 RunActionClicked (timestamp "2024-01-02" "00:00:10") ] init in
  date_roots w !! "2024-01-01" = Some 0
  /\ children w 0 = [1; 2]
  /\ children w 1 = [3]
  /\ item_text_of w 3 = "조치1"
  /\ (data w 3 ≫= title) = Some "2024-01-02 진단1 - 조치1 리포트"
  /\ (data w 2 ≫= title) = Some "2024-01-01 진단2 리포트"
  /\ (data w 1 ≫= action_seq) = Some 1%Z
  /\ current_item w = Some 3.
Proof. vm_compute. repeat split. Qed.

(** A literal stands for the bytes of its UTF-8 encoding: 요 is U+C694,
    약 is U+C57D. *)
Example utf8_literal :
  list_ascii_of_string "[요약]"
  = [ "["; "236"; "154"; "148"; "236"; "149"; "189"; "]" ]%char.
Proof. reflexivity. Qed.

(** ** Sequence numbers *)

Lemma lookup_seq_numbers n k :
  k < n → seq_numbers n !! k = Some (Z.of_nat (S k)).
Proof.
  intros Hk. unfold seq_numbers.
  by rewrite list_lookup_fmap, lookup_seq_lt.
Qed.

Lemma length_seq_numbers n : length (seq_numbers n) = n.
Proof. unfold seq_numbers. by rewrite length_fmap, length_seq. Qed.

(** The labels of a list of children whose [k]-th member is labelled
    [f k]. *)
Lemma children_texts w (P : nat → QTreeWidgetItem → Prop) (f : Z → string) cs :
  children_are w P cs →
  (∀ k it, P k it → item_text it = f (Z.of_nat k)) →
  item_text_of w <$> cs = f <$> seq_numbers (length cs).
Proof.
  intros Hcs HP. apply list_eq. intros k.
  rewrite !list_lookup_fmap.
  destruct (cs !! k) as [c|] eqn:Hk; simpl.
  - rewrite lookup_seq_numbers by (by eapply lookup_lt_Some). simpl.
    destruct (Hcs k c Hk) as (it & Hit & HPit).
    unfold item_text_of. rewrite Hit. simpl. f_equal. by apply HP.
  - rewrite (lookup_ge_None_2 (seq_numbers _)); [done|].
    rewrite length_seq_numbers. by apply lookup_ge_None.
Qed.

Lemma children_lookup w i it :
  items w !! i = Some it → children w i = item_children it.
Proof. intros Hi. unfold children. by rewrite Hi. Qed.

(** C1. For every date [d], after any sequence of user actions in which
    [N] diagnoses were started on [d]: the date group of [d] exists exactly
    when [N > 0] (it is created by the first of them); the labels of its
    children are 진단1 ... 진단N in the order of the list, and the counter
    of [d] is [N]; every further user action keeps the group and only
    appends to its children, so the order of the list is the order of
    creation. *)
Theorem diagnosis_sequence_numbers (es : list UserEvent) (d : string) :
  let w := run es init in
  let N := diag_count d es in
  (date_roots w !! d = None ↔ N = 0)
  ∧ (∀ r, date_roots w !! d = Some r →
       item_text_of w <$> children w r = diag_name <$> seq_numbers N
       ∧ diag_seq_by_date w !! d = Some (Z.of_nat N))
  ∧ (∀ r e, date_roots w !! d = Some r →
       date_roots (handle e w).1 !! d = Some r
       ∧ children w r `prefix_of` children (handle e w).1 r).
Proof.
  intros w N. pose proof (Inv_run es) as HI. fold w in HI.
  split_and!.
  - split.
    + intros Hnone. destruct (Nat.eq_dec N 0) as [|Hnz]; [done|].
      destruct (inv_root _ _ _ HI d ltac:(unfold N in *; lia))
        as (r & itr & Hr & _). congruence.
    + intros Hz. by apply (inv_absent _ _ _ HI).
  - intros r Hr.
    destruct (Nat.eq_dec N 0) as [Hz|Hnz].
    { apply (inv_absent _ _ _ HI) in Hz as [Hz _]. congruence. }
    destruct (inv_root _ _ _ HI d ltac:(unfold N in *; lia))
      as (r' & itr & Hr' & Hir & _ & _ & _ & Hln & Hsq & Hcs).
    assert (r' = r) as -> by congruence.
    split; [|done]. rewrite (children_lookup _ _ _ Hir). fold N in Hln.
    rewrite <- Hln. eapply children_texts; [done|].
    by intros k it (? & _).
  - intros r e Hr. split.
    + by eapply handle_date_roots.
    + by eapply handle_children_prefix.
Qed.

Lemma diagnosis_sequence_numbers_witness :
  let es := [ StartDiagClicked (timestamp "2024-01-01" "09:00:00");
              RunActionClicked (timestamp "2024-01-01" "09:01:00");
              StartDiagClicked (timestamp "2024-01-02" "00:00:01");
              StartDiagClicked (timestamp "2024-01-01" "23:59:59") ] in
  let w := run es init in
  date_roots w !! "2024-01-01" = Some 0
  ∧ item_text_of w <$> children w 0
    = diag_name <$> seq_numbers (diag_count "2024-01-01" es).
Proof.
  intros es w. split; [vm_compute; reflexivity|].
  apply (diagnosis_sequence_numbers es "2024-01-01"). vm_compute; reflexivity.
Defined.

(** C2. For every diagnosis item [g], after any sequence of user actions
    in which [M] presses of the action button created an action under [g]
    (whatever else was done in between, on other diagnoses or dates): the
    labels of the children of [g] are 조치1 ... 조치M in the order of the
    list; every further user action only appends to that list; and a user
    action that does not create an action under [g] leaves the list and
    the payload of [g], with its counter, as they are. *)
Theorem action_sequence_numbers (es : list UserEvent) (g : item_id)
    (p : Payload) :
  let w := run es init in
  data w g = Some p →
  kind p = Some "diagnosis" →
  item_text_of w <$> children w g
    = action_name <$> seq_numbers (action_count g es init)
  ∧ (∀ e, children w g `prefix_of` children (handle e w).1 g)
  ∧ (∀ e, acts_on g w e = false →
       children (handle e w).1 g = children w g
       ∧ data (handle e w).1 g = Some p).
Proof.
  intros w Hd Hk. pose proof (Inv_run es) as HI. fold w in HI.
  apply data_Some in Hd as (it & Hit & Hp).
  destruct (inv_item _ _ _ HI g it p Hit Hp)
    as [(_ & _ & Hlen & Hch)|(? & _)]; [|congruence].
  split_and!.
  - rewrite (children_lookup _ _ _ Hit), <- Hlen.
    eapply children_texts; [done|]. by intros k itc (? & _).
  - intros e. by eapply handle_children_prefix.
  - intros e He.
    destruct (handle_item_step _ _ e _ _ _ HI Hit) as (it' & Hit' & Hstep).
    rewrite He in Hstep. destruct Hstep as (_ & _ & _ & Hda & Hcs).
    rewrite (children_lookup _ _ _ Hit), (children_lookup _ _ _ Hit').
    split; [apply Hcs; by rewrite Hp|].
    apply data_Some. exists it'. split; [done | congruence].
Qed.

Lemma action_sequence_numbers_witness :
  let es := [ StartDiagClicked (timestamp "2024-01-01" "09:00:00");
              RunActionClicked (timestamp "2024-01-01" "09:01:00");
              StartDiagClicked (timestamp "2024-01-01" "09:02:00");
              RunActionClicked (timestamp "2024-01-01" "09:03:00");
              CurrentItemChanged (Some 2);
              RunActionClicked (timestamp "2024-01-01" "09:04:00");
              RunActionClicked (timestamp "2024-01-01" "09:05:00") ] in
  let w := run es init in
  item_text_of w <$> children w 1
  = action_name <$> seq_numbers (action_count 1 es init).
Proof.
  intros es w.
  apply (action_sequence_numbers es 1
           (set_action_seq 3
              (diagnosis_payload (timestamp "2024-01-01" "09:00:00") 1)));
    vm_compute; reflexivity.
Defined.

(** ** The selected diagnosis *)

Lemma resolve_no_current w :
  current_item w = None → _resolve_selected_diagnosis w = None.
Proof. intros Hc. unfold _resolve_selected_diagnosis. by rewrite Hc. Qed.

Lemma resolve_no_payload w i :
  current_item w = Some i → data w i = None →
  _resolve_selected_diagnosis w = None.
Proof.
  intros Hc Hd. unfold _resolve_selected_diagnosis. by rewrite Hc, Hd.
Qed.

Lemma resolve_diagnosis w i p :
  current_item w = Some i → data w i = Some p → kind p = Some "diagnosis" →
  _resolve_selected_diagnosis w = Some i.
Proof.
  intros Hc Hd Hk. unfold _resolve_selected_diagnosis.
  rewrite Hc, Hd. by rewrite bool_decide_eq_true_2.
Qed.

Lemma resolve_action w i p :
  current_item w = Some i → data w i = Some p → kind p = Some "action" →
  _resolve_selected_diagnosis w = parent w i.
Proof.
  intros Hc Hd Hk. unfold _resolve_selected_diagnosis. rewrite Hc, Hd.
  rewrite bool_decide_eq_false_2 by (rewrite Hk; discriminate).
  rewrite bool_decide_eq_true_2 by done. by destruct (parent w i).
Qed.

(** C3. In every state of the tree, [_resolve_selected_diagnosis] returns
    nothing when no item is selected or when the selected item carries no
    payload (a date group), the selected item itself when it is a
    diagnosis, and the parent of the selected item when it is an action.
    After any sequence of user actions the parent of a selected action is
    a diagnosis item that has the action among its children. *)
Theorem resolve_selected_diagnosis_cases :
  (∀ w, current_item w = None → _resolve_selected_diagnosis w = None)
  ∧ (∀ w i, current_item w = Some i → data w i = None →
       _resolve_selected_diagnosis w = None)
  ∧ (∀ w i p, current_item w = Some i → data w i = Some p →
       kind p = Some "diagnosis" →
       _resolve_selected_diagnosis w = Some i)
  ∧ (∀ w i p q, current_item w = Some i → data w i = Some p →
       kind p = Some "action" → parent w i = Some q →
       _resolve_selected_diagnosis w = Some q)
  ∧ (∀ es i p,
       let w := run es init in
       current_item w = Some i → data w i = Some p →
       kind p = Some "action" →
       ∃ q pq, _resolve_selected_diagnosis w = Some q
               ∧ parent w i = Some q
               ∧ i ∈ children w q
               ∧ data w q = Some pq
               ∧ kind pq = Some "diagnosis").
Proof.
  split_and!.
  - apply resolve_no_current.
  - apply resolve_no_payload.
  - apply resolve_diagnosis.
  - intros w i p q Hc Hd Hk Hq. by rewrite (resolve_action w i p).
  - intros es i p w Hc Hd Hk.
    pose proof (resolve_action w i p Hc Hd Hk) as Hres. pose proof (Inv_run es) as HI. fold w in HI.
    apply data_Some in Hd as (it & Hit & Hp).
    destruct (inv_item _ _ _ HI i it p Hit Hp)
      as [(? & _)|(_ & q & itq & pq & j & Hq & Hitq & Hpq & Hkq & Hj)];
      [congruence|].
    assert (parent w i = Some q) as Hpar.
    { unfold parent. by rewrite Hit. }
    exists q, pq. split_and!; try done.
    + congruence.
    + rewrite (children_lookup _ _ _ Hitq). by eapply list_elem_of_lookup_2.
    + apply data_Some. by eauto.
Qed.

Lemma resolve_selected_diagnosis_cases_witness :
  let es := [ StartDiagClicked (timestamp "2024-01-01" "09:00:00");
              RunActionClicked (timestamp "2024-01-01" "09:01:00") ] in
  _resolve_selected_diagnosis (run es init) = Some 1
  ∧ _resolve_selected_diagnosis (setCurrentItem (Some 1) (run es init)) = Some 1
  ∧ _resolve_selected_diagnosis (setCurrentItem (Some 0) (run es init)) = None
  ∧ _resolve_selected_diagnosis (setCurrentItem None (run es init)) = None.
Proof.
  intros es.
  destruct resolve_selected_diagnosis_cases as (H1 & H2 & H3 & H4 & _).
  split_and!.
  - eapply (H4 (run es init) 2); vm_compute; reflexivity.
  - eapply (H3 (setCurrentItem (Some 1) (run es init)) 1);
      vm_compute; reflexivity.
  - eapply (H2 (setCurrentItem (Some 0) (run es init)) 0);
      vm_compute; reflexivity.
  - apply H1. reflexivity.
Defined.

(** C7. When the diagnosis scope of the selection resolves to nothing, in
    particular when no item is selected or a date group is selected, the
    action button shows the warning box 선택 필요 (the NoSelectionError of
    the specification) and returns the very same window state: store,
    tree, selection, both dictionaries with every sequence counter. *)
Theorem create_action_record_no_selection (now : Timestamp) (w : MainWindow) :
  current_item w = None
  ∨ (∃ i, current_item w = Some i ∧ data w i = None)
  ∨ _resolve_selected_diagnosis w = None →
  create_action_record now w = (w, [no_selection_warning]).
Proof.
  intros H.
  assert (_resolve_selected_diagnosis w = None) as Hres.
  { destruct H as [H|[(i & Hc & Hd)|H]];
      [by apply resolve_no_current | by eapply resolve_no_payload | done]. }
  unfold create_action_record. by rewrite Hres.
Qed.

Lemma create_action_record_no_selection_witness :
  let w := run [ StartDiagClicked (timestamp "2024-01-01" "09:00:00");
                 CurrentItemChanged (Some 0) ] init in
  create_action_record (timestamp "2024-01-01" "09:01:00") w
  = (w, [no_selection_warning]).
Proof.
  intros w. apply create_action_record_no_selection.
  right. left. exists 0. split; vm_compute; reflexivity.
Defined.

(** ** Payloads and counters *)

Lemma create_diagnosis_record_new_item dc ac now w :
  Inv dc ac w →
  let w' := create_diagnosis_record now w in
  ∃ g, current_item w' = Some g
       ∧ data w' g = Some (diagnosis_payload now (next_diag_seq (date_str now) w))
       ∧ children w' g = [].
Proof.
  intros HI. simpl.
  destruct (date_roots w !! date_str now) as [r|] eqn:Hroot.
  - destruct (create_diagnosis_record_root_in_tree _ _ _ _ _ HI Hroot)
      as (itr & Hir & _).
    apply lookup_lt_Some in Hir.
    destruct (create_diagnosis_record_old_root now w r Hroot Hir)
      as (Hitems & _ & Hcur & _).
    exists (length (items w)). unfold data, children.
    rewrite Hitems, lookup_alter_snoc_new. done.
  - destruct (create_diagnosis_record_new_root now w Hroot)
      as (Hitems & _ & Hcur & _).
    exists (S (length (items w))). unfold data, children.
    rewrite Hitems, lookup_app_r by lia.
    by replace (S (length (items w)) - length (items w)) with 1 by lia.
Qed.

(** C9. After any sequence of user actions, one more user action of any
    kind (start a diagnosis, run an action, select or click an item, open
    the report dialog and save from it) leaves every field of every stored
    payload as it was, except that creating an action under a diagnosis
    adds exactly one to the [action_seq] of that diagnosis. *)
Theorem payload_fields_stable (es : list UserEvent) (e : UserEvent)
    (i : item_id) (p : Payload) :
  let w := run es init in
  let w' := (handle e w).1 in
  data w i = Some p →
  ∃ p', data w' i = Some p'
        ∧ kind p' = kind p
        ∧ created_at_full p' = created_at_full p
        ∧ created_time p' = created_time p
        ∧ title p' = title p
        ∧ text p' = text p
        ∧ table p' = table p
        ∧ if acts_on i w e
          then ∃ k, action_seq p = Some k ∧ action_seq p' = Some (k + 1)%Z
          else action_seq p' = action_seq p.
Proof.
  intros w w' Hd. pose proof (Inv_run es) as HI. fold w in HI.
  apply data_Some in Hd as (it & Hit & Hp).
  destruct (handle_item_step _ _ e _ _ _ HI Hit) as (it' & Hit' & Hstep).
  destruct Hstep as (_ & _ & _ & Hstep).
  destruct (acts_on i w e) eqn:Hact.
  - destruct Hstep as (p0 & Hp0 & Hp' & _).
    assert (p0 = p) as -> by congruence.
    eexists. split; [apply data_Some; by eauto|].
    split_and!; try done.
    destruct e as [now|now|item|sel|saves]; try done.
    simpl in Hact. apply bool_decide_eq_true in Hact.
    apply action_target_Some in Hact as (Hres & _).
    destruct (resolve_in_tree _ _ _ _ HI Hres) as (itg & pg & Hg & Hpg & Hk).
    assert (itg = it) as -> by congruence.
    assert (pg = p) as -> by congruence.
    destruct (inv_item _ _ _ HI i it p Hit Hp)
      as [(_ & Hseq & _)|(? & _)]; [|congruence].
    eexists. split; [done|]. simpl. by rewrite Hseq.
  - destruct Hstep as (Hda & _).
    exists p. split_and!; try done. apply data_Some. exists it'.
    split; [done | congruence].
Qed.

Lemma payload_fields_stable_witness :
  let es := [ StartDiagClicked (timestamp "2024-01-01" "09:00:00");
              RunActionClicked (timestamp "2024-01-01" "09:01:00") ] in
  let e := RunActionClicked (timestamp "2024-01-01" "09:02:00") in
  let p := set_action_seq 1
             (diagnosis_payload (timestamp "2024-01-01" "09:00:00") 1) in
  ∃ p', data (handle e (run es init)).1 1 = Some p'
        ∧ kind p' = kind p
        ∧ created_at_full p' = created_at_full p
        ∧ created_time p' = created_time p
        ∧ title p' = title p
        ∧ text p' = text p
        ∧ table p' = table p
        ∧ if acts_on 1 (run es init) e
          then ∃ k, action_seq p = Some k ∧ action_seq p' = Some (k + 1)%Z
          else action_seq p' = action_seq p.
Proof.
  intros es e p. apply (payload_fields_stable es e 1 p).
  vm_compute; reflexivity.
Defined.

(** C10. After any sequence of user actions, the [action_seq] of every
    diagnosis payload is the number of children of its item, and these
    children are action items whose parent is the diagnosis.  A diagnosis
    starts with counter 0 and no children, and creating an action under it
    adds one to the counter and appends one child. *)
Theorem action_seq_is_child_count (es : list UserEvent) :
  let w := run es init in
  (∀ g p, data w g = Some p → kind p = Some "diagnosis" →
     action_seq p = Some (Z.of_nat (length (children w g)))
     ∧ ∀ a, a ∈ children w g →
         ∃ pa, data w a = Some pa ∧ kind pa = Some "action"
               ∧ parent w a = Some g)
  ∧ (∀ now, let w' := create_diagnosis_record now w in
     ∃ g p, current_item w' = Some g ∧ data w' g = Some p
            ∧ kind p = Some "diagnosis"
            ∧ action_seq p = Some 0%Z ∧ children w' g = [])
  ∧ (∀ now g p, let w' := (create_action_record now w).1 in
     action_target w = Some g → data w g = Some p →
     ∃ a p', children w' g = children w g ++ [a]
             ∧ data w' g = Some p'
             ∧ action_seq p'
               = Some (Z.of_nat (length (children w g)) + 1)%Z).
Proof.
  intros w. pose proof (Inv_run es) as HI. fold w in HI.
  split_and!.
  - intros g p Hd Hk. apply data_Some in Hd as (it & Hit & Hp).
    destruct (inv_item _ _ _ HI g it p Hit Hp)
      as [(_ & Hseq & Hlen & Hch)|(? & _)]; [|congruence].
    rewrite (children_lookup _ _ _ Hit), Hlen. split; [done|].
    intros a Ha. apply list_elem_of_lookup in Ha as [j Hj].
    destruct (Hch j a Hj) as (ita & Hita & _ & Hpar & _ & pa & dd & Hpa & Hka & _).
    exists pa. split_and!; try done.
    + apply data_Some. by eauto.
    + unfold parent. by rewrite Hita.
  - intros now.
    destruct (create_diagnosis_record_new_item _ _ now _ HI)
      as (g & Hcur & Hd & Hch).
    by exists g, (diagnosis_payload now (next_diag_seq (date_str now) w)).
  - intros now g p w' Ht Hd. apply data_Some in Hd as (it & Hit & Hp).
    destruct (handle_item_step _ _ (RunActionClicked now) _ _ _ HI Hit)
      as (it' & Hit' & Hstep).
    simpl in Hit', Hstep. rewrite bool_decide_eq_true_2 in Hstep by done.
    destruct Hstep as (_ & _ & _ & p0 & Hp0 & Hp' & a & Hch).
    assert (p0 = p) as -> by congruence.
    apply action_target_Some in Ht as (Hres & _).
    destruct (resolve_in_tree _ _ _ _ HI Hres) as (itg & pg & Hg & Hpg & Hk).
    assert (itg = it) as -> by congruence.
    assert (pg = p) as -> by congruence.
    destruct (inv_item _ _ _ HI g it p Hit Hp)
      as [(_ & Hseq & Hlen & _)|(? & _)]; [|congruence].
    exists a, (set_action_seq (default 0 (action_seq p) + 1)%Z p).
    fold w' in Hit'.
    rewrite (children_lookup _ _ _ Hit), (children_lookup _ _ _ Hit').
    split_and!; try done.
    + apply data_Some. by eauto.
    + simpl. by rewrite Hseq, Hlen.
Qed.

Lemma action_seq_is_child_count_witness :
  let es := [ StartDiagClicked (timestamp "2024-01-01" "09:00:00");
              RunActionClicked (timestamp "2024-01-01" "09:01:00");
              RunActionClicked (timestamp "2024-01-01" "09:02:00") ] in
  let w := run es init in
  let p := set_action_seq 2
             (diagnosis_payload (timestamp "2024-01-01" "09:00:00") 1) in
  action_seq p = Some (Z.of_nat (length (children w 1))).
Proof.
  intros es w p.
  apply (proj1 (action_seq_is_child_count es) 1 p); vm_compute; reflexivity.
Defined.

(** ** Titles *)

Lemma create_action_record_new_item now w g itg p :
  _resolve_selected_diagnosis w = Some g →
  items w !! g = Some itg →
  item_data itg = Some p →
  let w' := (create_action_record now w).1 in
  let a := length (items w) in
  current_item w' = Some a
  ∧ items w' !! a
    = Some (new_action_item now g (item_text itg)
              (default 0 (action_seq p) + 1)%Z)
  ∧ children w' g = children w g ++ [a].
Proof.
  intros Hres Hg Hp. simpl.
  destruct (create_action_record_frame now w g itg p Hres Hg Hp)
    as (_ & Hcur & _).
  unfold children.
  rewrite (create_action_record_items now w g itg p Hres Hg Hp).
  split_and!; [done | apply lookup_alter_snoc_new |].
  by rewrite (lookup_alter_snoc_eq _ _ _ _ itg), Hg.
Qed.

(** C4 as the specification words it does not hold: the title of a new
    action is not built from the stored title of its diagnosis.  One
    diagnosis is started on 2024-01-01 and an action is run under it. *)
Lemma action_title_from_stored_title_fails :
  let now := timestamp "2024-01-01" "09:30:00" in
  let w := run [StartDiagClicked (timestamp "2024-01-01" "09:00:00")] init in
  let w' := (create_action_record now w).1 in
  action_target w = Some 1
  ∧ data w 1 ≫= title = Some "2024-01-01 진단1 리포트"
  ∧ data w' 2 ≫= title = Some "2024-01-01 진단1 - 조치1 리포트"
  ∧ data w' 2 ≫= title
    ≠ Some "2024-01-01 2024-01-01 진단1 리포트 - 조치1 리포트"
  ∧ ¬ action_title_from_stored_title.
Proof.
  repeat (split; [vm_compute; reflexivity|]).
  split.
  - vm_compute. intros H. discriminate H.
  - intros H.
    specialize
      (H (timestamp "2024-01-01" "09:30:00")
         (run [StartDiagClicked (timestamp "2024-01-01" "09:00:00")] init)
         1 (diagnosis_payload (timestamp "2024-01-01" "09:00:00") 1)
         "2024-01-01 진단1 리포트" eq_refl eq_refl eq_refl).
    vm_compute in H. discriminate H.
Qed.

(** C4, amended. Whenever the action button creates an action under the
    diagnosis item [g], the new item becomes the last child of [g] and the
    current item, its label is 조치{seq} and its title is
    "{date} {label of g} - 조치{seq} 리포트", where date is the date of the
    press, seq is one more than the counter stored on [g], and the label
    of [g] is its display name 진단{k}, not its stored title. *)
Theorem action_title_from_label (now : Timestamp) (w : MainWindow)
    (g : item_id) (p : Payload) :
  let w' := (create_action_record now w).1 in
  let a := length (items w) in
  let seq := (default 0 (action_seq p) + 1)%Z in
  action_target w = Some g →
  data w g = Some p →
  current_item w' = Some a
  ∧ children w' g = children w g ++ [a]
  ∧ item_text_of w' a = "조치" +:+ pretty seq
  ∧ data w' a ≫= title
    = Some (date_str now +:+ " " +:+ item_text_of w g +:+ " - 조치"
            +:+ pretty seq +:+ " 리포트").
Proof.
  intros w' a seq Ht Hd.
  apply action_target_Some in Ht as (Hres & itg & p' & Hg & Hp).
  assert (p' = p) as ->.
  { unfold data in Hd. rewrite Hg in Hd. simpl in Hd. congruence. }
  destruct (create_action_record_new_item now w g itg p Hres Hg Hp)
    as (Hcur & Ha & Hch).
  fold w' a in Hcur, Ha, Hch.
  split_and!; try done.
  - unfold item_text_of. by rewrite Ha.
  - unfold data, item_text_of. by rewrite Ha, Hg.
Qed.

Lemma action_title_from_label_witness :
  let now := timestamp "2024-01-02" "00:10:00" in
  let w := run [StartDiagClicked (timestamp "2024-01-01" "23:50:00")] init in
  let p := diagnosis_payload (timestamp "2024-01-01" "23:50:00") 1 in
  let w' := (create_action_record now w).1 in
  current_item w' = Some 2
  ∧ children w' 1 = children w 1 ++ [2]
  ∧ item_text_of w' 2 = "조치" +:+ pretty (default 0 (action_seq p) + 1)%Z
  ∧ data w' 2 ≫= title
    = Some (date_str now +:+ " " +:+ item_text_of w 1 +:+ " - 조치"
            +:+ pretty (default 0 (action_seq p) + 1)%Z +:+ " 리포트").
Proof.
  intros now w p w'.
  apply (action_title_from_label now w 1 p); vm_compute; reflexivity.
Defined.

(** C5 as the specification words it does not hold: an action created on
    a later date than its diagnosis carries its own date in the title.  A
    diagnosis is started on 2024-01-01 shortly before midnight and an
    action is run under it shortly after. *)
Lemma action_title_dated_like_diagnosis_fails :
  let w := run [ StartDiagClicked (timestamp "2024-01-01" "23:50:00");
                 RunActionClicked (timestamp "2024-01-02" "00:10:00") ] init in
  date_roots w !! "2024-01-01" = Some 0
  ∧ children w 0 !! 0 = Some 1
  ∧ children w 1 !! 0 = Some 2
  ∧ data w 2 ≫= title = Some "2024-01-02 진단1 - 조치1 리포트"
  ∧ data w 2 ≫= title ≠ Some "2024-01-01 진단1 - 조치1 리포트"
  ∧ ¬ action_title_dated_like_diagnosis.
Proof.
  repeat (split; [vm_compute; reflexivity|]).
  split.
  - vm_compute. intros H. discriminate H.
  - intros H.
    specialize
      (H [ StartDiagClicked (timestamp "2024-01-01" "23:50:00");
           RunActionClicked (timestamp "2024-01-02" "00:10:00") ]
         "2024-01-01" 0 1 2 0 0 eq_refl eq_refl eq_refl).
    vm_compute in H. discriminate H.
Qed.

(** C5, amended. After any sequence of user actions, the [k]-th diagnosis
    of date [d] is labelled 진단{k} and titled "{d} 진단{k} 리포트"; its
    [j]-th action is titled "{d'} 진단{k} - 조치{j} 리포트" for some date
    [d']; and an action created under it at a press dated [d'] is its next
    action and is titled with that [d'], which is [d] only when the press
    happens on the date of the diagnosis. *)
Theorem titles_by_position (es : list UserEvent) (d : string)
    (r g : item_id) (i : nat) :
  let w := run es init in
  let k := Z.of_nat (S i) in
  date_roots w !! d = Some r →
  children w r !! i = Some g →
  item_text_of w g = "진단" +:+ pretty k
  ∧ data w g ≫= title = Some (d +:+ " 진단" +:+ pretty k +:+ " 리포트")
  ∧ (∀ j a, children w g !! j = Some a →
       ∃ d', data w a ≫= title
             = Some (d' +:+ " 진단" +:+ pretty k +:+ " - 조치"
                     +:+ pretty (Z.of_nat (S j)) +:+ " 리포트"))
  ∧ (∀ now, action_target w = Some g →
       let w' := (create_action_record now w).1 in
       let a := length (items w) in
       let j := length (children w g) in
       children w' g !! j = Some a
       ∧ data w' a ≫= title
         = Some (date_str now +:+ " 진단" +:+ pretty k +:+ " - 조치"
                 +:+ pretty (Z.of_nat (S j)) +:+ " 리포트")).
Proof.
  intros w k Hr Hi. pose proof (Inv_run es) as HI. fold w in HI.
  destruct (Nat.eq_dec (diag_count d es) 0) as [Hz|Hnz].
  { apply (inv_absent _ _ _ HI) in Hz as [Hz _]. congruence. }
  assert (0 < diag_count d es) as Hpos by lia.
  destruct (inv_root _ _ _ HI d Hpos)
    as (r' & itr & Hr' & Hir & _ & _ & _ & _ & _ & Hcs).
  assert (r' = r) as -> by congruence.
  rewrite (children_lookup _ _ _ Hir) in Hi.
  destruct (Hcs i g Hi) as (itg & Hg & Htx & _ & p & Hp & Hk & Hti).
  destruct (inv_item _ _ _ HI g itg p Hg Hp)
    as [(_ & Hseq & Hlen & Hch)|(? & _)]; [|congruence].
  assert (item_text_of w g = "진단" +:+ pretty k) as Hlabel.
  { unfold item_text_of. by rewrite Hg. }
  split_and!.
  - done.
  - unfold data. rewrite Hg. simpl. rewrite Hp. simpl. by rewrite Hti.
  - intros j a Hj. rewrite (children_lookup _ _ _ Hg) in Hj.
    destruct (Hch j a Hj) as (ita & Ha & _ & _ & _ & pa & d' & Hpa & _ & Hta).
    exists d'. unfold data. rewrite Ha. simpl. rewrite Hpa. simpl.
    by rewrite Hta, Htx.
  - intros now Ht w' a j.
    apply action_target_Some in Ht as (Hres & _).
    destruct (create_action_record_new_item now w g itg p Hres Hg Hp)
      as (_ & Ha & Hch').
    fold w' a in Ha, Hch'. split.
    + rewrite Hch'. by rewrite lookup_app_r, Nat.sub_diag by done.
    + unfold data. rewrite Ha. simpl. unfold action_title, action_name.
      rewrite Htx, Hseq. simpl. unfold j.
      rewrite (children_lookup _ _ _ Hg), Hlen.
      by replace (Z.of_nat (action_count g es init) + 1)%Z
        with (Z.of_nat (S (action_count g es init))) by lia.
Qed.

Lemma titles_by_position_witness :
  let es := [ StartDiagClicked (timestamp "2024-01-01" "09:00:00");
              StartDiagClicked (timestamp "2024-01-01" "09:05:00");
              RunActionClicked (timestamp "2024-01-01" "09:06:00") ] in
  let w := run es init in
  data w 2 ≫= title
  = Some ("2024-01-01" +:+ " 진단" +:+ pretty (Z.of_nat 2) +:+ " 리포트").
Proof.
  intros es w.
  destruct (titles_by_position es "2024-01-01" 0 2 1) as (_ & H & _);
    [vm_compute; reflexivity.. | exact H].
Defined.

(** ** Export *)

Lemma string_app_nil_r s : s +:+ "" = s.
Proof.
  induction s as [|c s IH]; [done|].
  change (String c (s +:+ "") = String c s). by rewrite IH.
Qed.

Lemma string_app_assoc s1 s2 s3 : (s1 +:+ s2) +:+ s3 = s1 +:+ s2 +:+ s3.
Proof.
  induction s1 as [|c s1 IH]; [done|].
  change (String c ((s1 +:+ s2) +:+ s3) = String c (s1 +:+ s2 +:+ s3)).
  by rewrite IH.
Qed.

Lemma table_line_render_row row : table_line row = render_row row.
Proof. by destruct row as [|a [|b [|c [|? ?]]]]. Qed.

Lemma row_has_three_columns row : length (three_columns row) = 3.
Proof. by destruct row as [|a [|b [|c [|? ?]]]]. Qed.

Lemma concat_lines line rows :
  String.concat nl (line :: map table_line rows) = line +:+ render_rows rows.
Proof.
  revert line. induction rows as [|row rows IH]; intros line.
  - simpl. by rewrite string_app_nil_r.
  - change (String.concat nl (line :: map table_line (row :: rows)))
      with (line +:+ nl +:+ String.concat nl (table_line row :: map table_line rows)).
    by rewrite IH, table_line_render_row.
Qed.

Lemma concat_cons line line' lines :
  String.concat nl (line :: line' :: lines)
  = line +:+ nl +:+ String.concat nl (line' :: lines).
Proof. done. Qed.

Lemma concat_body payload :
  String.concat nl (body payload) = renderAsText payload.
Proof.
  unfold body, renderAsText. cbn [app].
  rewrite !concat_cons, concat_lines.
  by rewrite !string_app_assoc.
Qed.

Lemma save_as_txt_effects payload env :
  chosen_path env ≠ "" →
  write_error env = None →
  _save_as_txt payload env =
    [ GetSaveFileName "리포트 저장" (default_name payload) "Text Files (*.txt)";
      FileWrite (chosen_path env) (String.concat nl (body payload));
      MsgInformation "저장 완료"
        ("리포트를 저장했습니다." +:+ nl +:+ chosen_path env) ].
Proof.
  intros Hpath Herr. unfold _save_as_txt.
  by rewrite bool_decide_eq_false_2, Herr by done.
Qed.

Lemma replace_length old new s :
  String.length (replace old new s) = String.length s.
Proof. induction s as [|c s IH]; simpl; congruence. Qed.

Lemma replace_get old new s n :
  String.get n (replace old new s)
  = (λ c, if bool_decide (c = old) then new else c) <$> String.get n s.
Proof.
  revert n. induction s as [|c s IH]; intros n; [done|].
  destruct n as [|n]; simpl; [done | apply IH].
Qed.

(** C6. For every payload, when the file dialog returns a path and the
    file can be written, the save button asks for a file name with the
    default "{title with every space replaced by _}.txt" and writes to the
    chosen path exactly the text of [renderAsText]: the lines 제목, 종류,
    생성시각, an empty line, [요약], the summary, an empty line, [표 데이터]
    and one line "- col1 | col2 | col3" per table row, joined by single
    newline characters; a row is padded with empty strings to three
    columns and cut after the third.  Strings are UTF-8 byte strings, so
    the bytes written are those of the text. *)
Theorem save_as_txt_layout (payload : Payload) (env : SaveEnv) :
  chosen_path env ≠ "" →
  write_error env = None →
  _save_as_txt payload env =
    [ GetSaveFileName "리포트 저장"
        (replace " " "_" (default "report" (title payload)) +:+ ".txt")
        "Text Files (*.txt)";
      FileWrite (chosen_path env) (renderAsText payload);
      MsgInformation "저장 완료"
        ("리포트를 저장했습니다." +:+ nl +:+ chosen_path env) ]
  ∧ (∀ t n, title payload = Some t →
       String.get n (replace " " "_" t)
       = (λ c, if bool_decide (c = " "%char) then "_"%char else c)
           <$> String.get n t)
  ∧ render_row [] = "- " +:+ "" +:+ " | " +:+ "" +:+ " | " +:+ ""
  ∧ (∀ a, render_row [a] = "- " +:+ a +:+ " | " +:+ "" +:+ " | " +:+ "")
  ∧ (∀ a b, render_row [a; b] = "- " +:+ a +:+ " | " +:+ b +:+ " | " +:+ "")
  ∧ (∀ a b c rest,
       render_row (a :: b :: c :: rest)
       = "- " +:+ a +:+ " | " +:+ b +:+ " | " +:+ c).
Proof.
  intros Hpath Herr. split_and!; try done.
  - rewrite save_as_txt_effects by done. by rewrite concat_body.
  - intros t n _. apply replace_get.
Qed.

Lemma save_as_txt_layout_witness :
  let payload := diagnosis_payload (timestamp "2024-01-01" "09:00:00") 1 in
  let env := {| chosen_path := "/tmp/report.txt"; write_error := None |} in
  _save_as_txt payload env =
    [ GetSaveFileName "리포트 저장"
        (replace " " "_" (default "report" (title payload)) +:+ ".txt")
        "Text Files (*.txt)";
      FileWrite (chosen_path env) (renderAsText payload);
      MsgInformation "저장 완료"
        ("리포트를 저장했습니다." +:+ nl +:+ chosen_path env) ].
Proof.
  intros payload env.
  apply (save_as_txt_layout payload env); [vm_compute; discriminate | reflexivity].
Defined.

(** C8. For every payload and every row [a; b; c] of its table, at
    position [k]: the line at position [k] after the eight heading lines
    of the exported text is "- a | b | c" with the three values as they
    are; there is one such line per row, in the order of the table; and
    the text written by the save button is these lines joined by
    newlines. *)
Theorem three_column_rows_verbatim (payload : Payload) (env : SaveEnv)
    (rows : list (list string)) (k : nat) (a b c : string) :
  table payload = Some rows →
  rows !! k = Some [a; b; c] →
  body payload !! (8 + k) = Some ("- " +:+ a +:+ " | " +:+ b +:+ " | " +:+ c)
  ∧ length (body payload) = 8 + length rows
  ∧ drop 8 (body payload) = table_line <$> rows
  ∧ (chosen_path env ≠ "" → write_error env = None →
     FileWrite (chosen_path env) (String.concat nl (body payload))
     ∈ _save_as_txt payload env).
Proof.
  intros Ht Hk. unfold body. rewrite Ht. simpl. split_and!.
  - by rewrite list_lookup_fmap, Hk.
  - by rewrite length_map.
  - done.
  - intros Hpath Herr. rewrite save_as_txt_effects by done.
    unfold body. rewrite Ht. simpl. set_solver.
Qed.

Lemma three_column_rows_verbatim_witness :
  let payload := action_payload (timestamp "2024-01-01" "09:01:00") "진단1" 1 in
  body payload !! (8 + 1)
  = Some ("- " +:+ "조치결과" +:+ " | " +:+ "성공" +:+ " | " +:+ "placeholder").
Proof.
  intros payload.
  apply (three_column_rows_verbatim payload
           {| chosen_path := "report.txt"; write_error := None |}
           [ ["조치대상"; "진단1"; "더미"];
             ["조치결과"; "성공"; "placeholder"];
             ["비고"; "조치1"; "예시"] ] 1);
    reflexivity.
Defined.

(** ** The shape of the tree *)

(** What one user action does to the store, the top-level list and the
    date dictionary. *)
Lemma handle_shape dc ac e w :
  Inv dc ac w →
  let w' := (handle e w).1 in
  let n := length (items w) in
  (dates [e] = []
   ∧ items w' = items w
   ∧ top_level w' = top_level w
   ∧ date_roots w' = date_roots w)
  ∨ (∃ now r itr,
       e = StartDiagClicked now
       ∧ date_roots w !! date_str now = Some r
       ∧ items w !! r = Some itr
       ∧ item_data itr = None
       ∧ item_text itr = date_str now
       ∧ items w' = alter (root_after_diag n) r (items w)
                    ++ [new_diag_item now r (next_diag_seq (date_str now) w)]
       ∧ top_level w' = top_level w
       ∧ date_roots w' = date_roots w)
  ∨ (∃ now,
       e = StartDiagClicked now
       ∧ date_roots w !! date_str now = None
       ∧ items w' = items w
                    ++ [ root_after_diag (S n) (new_item (date_str now));
                         new_diag_item now n (next_diag_seq (date_str now) w) ]
       ∧ top_level w' = top_level w ++ [n]
       ∧ date_roots w' = <[date_str now := n]> (date_roots w))
  ∨ (∃ now g itg p,
       e = RunActionClicked now
       ∧ action_target w = Some g
       ∧ items w !! g = Some itg
       ∧ item_data itg = Some p
       ∧ kind p = Some "diagnosis"
       ∧ items w' = alter (diag_after_action n p) g (items w)
                    ++ [ new_action_item now g (item_text itg)
                           (default 0 (action_seq p) + 1)%Z ]
       ∧ top_level w' = top_level w
       ∧ date_roots w' = date_roots w).
Proof.
  intros HI. destruct e as [now|now|item|sel|saves]; simpl.
  - destruct (date_roots w !! date_str now) as [r|] eqn:Hroot.
    + destruct (create_diagnosis_record_root_in_tree _ _ _ _ _ HI Hroot)
        as (itr & Hir & Hda & Htx).
      pose proof (lookup_lt_Some _ _ _ Hir) as Hlt.
      destruct (create_diagnosis_record_old_root now w r Hroot Hlt)
        as (Hitems & Htop & _ & Hroots & _).
      right. left. by exists now, r, itr.
    + destruct (create_diagnosis_record_new_root now w Hroot)
        as (Hitems & Htop & _ & Hroots & _).
      right. right. left. by exists now.
  - destruct (action_target w) as [g|] eqn:Ht.
    + apply action_target_Some in Ht as (Hres & itg & p & Hg & Hp).
      destruct (resolve_in_tree _ _ _ _ HI Hres) as (itg' & p' & Hg' & Hp' & Hk).
      assert (itg' = itg) as -> by congruence.
      assert (p' = p) as -> by congruence.
      destruct (create_action_record_frame now w g itg p Hres Hg Hp)
        as (Htop & _ & Hroots & _).
      right. right. right. exists now, g, itg, p.
      split_and!; try done.
      by apply create_action_record_items.
    + destruct (create_action_record_fail now w Ht) as [msg ->]. by left.
  - left. unfold in_tree. case_bool_decide; simpl; [|done].
    by rewrite on_tree_item_clicked_items, on_tree_item_clicked_top_level,
      on_tree_item_clicked_date_roots.
  - left. destruct sel as [item|]; [|done].
    unfold in_tree. by case_bool_decide.
  - by left.
Qed.

Lemma first_seen_snoc l x :
  first_seen (l ++ [x])
  = if bool_decide (x ∈ first_seen l) then first_seen l else first_seen l ++ [x].
Proof. unfold first_seen. by rewrite fold_left_app. Qed.

Lemma dates_snoc es e : dates (es ++ [e]) = dates es ++ dates [e].
Proof. unfold dates. by rewrite omap_app. Qed.

Lemma item_text_of_lookup w i it :
  items w !! i = Some it → item_text_of w i = item_text it.
Proof. intros Hi. unfold item_text_of. by rewrite Hi. Qed.

(** The labels of items that stay in the store with their label. *)
Lemma item_texts_stable w w' (l : list item_id) :
  (∀ i it, i ∈ l → items w !! i = Some it →
     ∃ it', items w' !! i = Some it' ∧ item_text it' = item_text it) →
  (∀ i, i ∈ l → is_Some (items w !! i)) →
  item_text_of w' <$> l = item_text_of w <$> l.
Proof.
  intros Hstep Hin. apply list_fmap_ext. intros k i Hk.
  apply list_elem_of_lookup_2 in Hk.
  destruct (Hin i Hk) as [it Hit].
  destruct (Hstep i it Hk Hit) as (it' & Hit' & Htx).
  by rewrite (item_text_of_lookup _ _ _ Hit), (item_text_of_lookup _ _ _ Hit').
Qed.

Lemma Shape_init : Shape [] init.
Proof. split; simpl; try done. intros r Hr. by apply elem_of_nil in Hr. Qed.

Lemma Shape_handle dc ac ds e w :
  Inv dc ac w →
  Shape ds w →
  Shape (match e with
         | StartDiagClicked now =>
             if bool_decide (date_str now ∈ ds) then ds else ds ++ [date_str now]
         | _ => ds
         end) (handle e w).1.
Proof.
  intros HI [S1 S2 S3 S4].
  destruct (handle_shape _ _ e _ HI)
    as [(Hd & Hitems & Htop & Hroots)
       |[(now & r & itr & -> & Hroot & Hir & Hda & Htx & Hitems & Htop & Hroots)
        |[(now & -> & Hroot & Hitems & Htop & Hroots)
         |(now & g & itg & p & -> & Ht & Hg & Hp & Hk & Hitems & Htop & Hroots)]]].
  - (* nothing is created *)
    assert (match e with
            | StartDiagClicked now =>
                if bool_decide (date_str now ∈ ds) then ds
                else ds ++ [date_str now]
            | _ => ds
            end = ds) as -> by (by destruct e).
    split; unfold item_text_of; rewrite ?Hitems, ?Htop, ?Hroots; done.
  - (* a diagnosis under an existing date item *)
    destruct (S1 r itr Hir Hda) as (_ & _ & Hrtop).
    assert (date_str now ∈ ds) as Hin.
    { rewrite <- S4, <- Htx, <- (item_text_of_lookup _ _ _ Hir).
      by apply list_elem_of_fmap_2. }
    rewrite bool_decide_eq_true_2 by done.
    split.
    + intros i it'. rewrite Hitems, Htop, Hroots. intros Hi Hnone.
      apply lookup_alter_snoc_inv in Hi
        as [(-> & itr0 & Hr0 & ->)|[(-> & ->)|(Hne & Hi)]].
      * assert (itr0 = itr) as -> by congruence. simpl. by apply S1.
      * done.
      * by apply S1.
    + intros i it' pi. rewrite Hitems. intros Hi Hpi Hki.
      apply lookup_alter_snoc_inv in Hi
        as [(-> & itr0 & Hr0 & ->)|[(-> & ->)|(Hne & Hi)]].
      * assert (itr0 = itr) as -> by congruence. simpl in Hpi. congruence.
      * exists r, (root_after_diag (length (items w)) itr).
        split_and!; try done.
        -- by apply lookup_alter_snoc_eq.
        -- simpl. apply elem_of_app. right. by apply list_elem_of_singleton.
      * destruct (S2 i it' pi Hi Hpi Hki) as (r0 & itr0 & Hpar & Hir0 & Hda0 & Hin0).
        destruct (decide (r0 = r)) as [->|Hr0].
        -- assert (itr0 = itr) as -> by congruence.
           exists r, (root_after_diag (length (items w)) itr).
           split_and!; try done.
           ++ by apply lookup_alter_snoc_eq.
           ++ simpl. apply elem_of_app. by left.
        -- exists r0, itr0. split_and!; try done.
           by apply lookup_alter_snoc_ne.
    + intros r0. rewrite Htop, Hitems. intros Hr0.
      destruct (S3 r0 Hr0) as (itr0 & Hir0 & Hda0).
      destruct (decide (r0 = r)) as [->|Hne].
      * assert (itr0 = itr) as -> by congruence.
        exists (root_after_diag (length (items w)) itr).
        split; [by apply lookup_alter_snoc_eq | done].
      * exists itr0. split; [by apply lookup_alter_snoc_ne | done].
    + rewrite Htop, <- S4. apply item_texts_stable.
      * intros i it Hi Hit. rewrite Hitems.
        destruct (decide (i = r)) as [->|Hne].
        -- eexists. split; [by apply lookup_alter_snoc_eq | done].
        -- exists it. split; [by apply lookup_alter_snoc_ne | done].
      * intros i Hi. destruct (S3 i Hi) as (? & ? & _). by eexists.
  - (* a diagnosis under a new date item *)
    assert (date_str now ∉ ds) as Hnin.
    { rewrite <- S4. intros Hin.
      apply list_elem_of_fmap in Hin as (r & Htx & Hr).
      destruct (S3 r Hr) as (itr & Hir & Hda).
      destruct (S1 r itr Hir Hda) as (Hreg & _).
      rewrite (item_text_of_lookup _ _ _ Hir) in Htx. congruence. }
    rewrite bool_decide_eq_false_2 by done.
    assert (∀ i it, items w !! i = Some it →
              items (handle (StartDiagClicked now) w).1 !! i = Some it) as Hold.
    { intros i it Hi. rewrite Hitems. by apply lookup_app_l_Some. }
    split.
    + intros i it'. rewrite Hitems, Htop, Hroots. intros Hi Hnone.
      apply lookup_app_Some in Hi as [Hi|[Hge Hi]].
      * destruct (S1 i it' Hi Hnone) as (Hreg & Hpar & Hin).
        split_and!; try done.
        -- rewrite lookup_insert_ne; [done|]. intros Heq. congruence.
        -- apply elem_of_app. by left.
      * destruct (i - length (items w)) as [|[|?]] eqn:Hk; simpl in Hi;
          [| |done]; injection Hi as <-; [|done].
        assert (i = length (items w)) as -> by lia. simpl.
        rewrite lookup_insert_eq. split_and!; try done.
        apply elem_of_app. right. by apply list_elem_of_singleton.
    + intros i it' pi. rewrite Hitems. intros Hi Hpi Hki.
      apply lookup_app_Some in Hi as [Hi|[Hge Hi]].
      * destruct (S2 i it' pi Hi Hpi Hki) as (r0 & itr0 & Hpar & Hir0 & Hda0 & Hin0).
        exists r0, itr0. split_and!; try done. by apply lookup_app_l_Some.
      * destruct (i - length (items w)) as [|[|?]] eqn:Hk; simpl in Hi;
          [| |done]; injection Hi as <-; [done|].
        assert (i = S (length (items w))) as -> by lia.
        exists (length (items w)),
          (root_after_diag (S (length (items w))) (new_item (date_str now))).
        split_and!; try done.
        -- rewrite lookup_app_r by done. by rewrite Nat.sub_diag.
        -- simpl. by apply list_elem_of_singleton.
    + intros r0. rewrite Htop. intros Hr0.
      apply elem_of_app in Hr0 as [Hr0|Hr0].
      * destruct (S3 r0 Hr0) as (itr0 & Hir0 & Hda0).
        exists itr0. split; [by apply Hold | done].
      * apply list_elem_of_singleton in Hr0 as ->.
        exists (root_after_diag (S (length (items w))) (new_item (date_str now))).
        split; [|done]. rewrite Hitems, lookup_app_r by done.
        by rewrite Nat.sub_diag.
    + rewrite Htop, fmap_app, <- S4. f_equal.
      * apply item_texts_stable.
        -- intros i it Hi Hit. exists it. split; [by apply Hold | done].
        -- intros i Hi. destruct (S3 i Hi) as (? & ? & _). by eexists.
      * simpl. unfold item_text_of. simpl in Hitems.
        rewrite Hitems, lookup_app_r by done. by rewrite Nat.sub_diag.
  - (* an action under a diagnosis *)
    split.
    + intros i it'. rewrite Hitems, Htop, Hroots. intros Hi Hnone.
      apply lookup_alter_snoc_inv in Hi
        as [(-> & itg0 & Hg0 & ->)|[(-> & ->)|(Hne & Hi)]]; [done..|].
      by apply S1.
    + intros i it' pi. rewrite Hitems. intros Hi Hpi Hki.
      assert (∀ r0 itr0, items w !! r0 = Some itr0 → item_data itr0 = None →
                (alter (diag_after_action (length (items w)) p) g (items w)
                 ++ [new_action_item now g (item_text itg)
                       (default 0 (action_seq p) + 1)%Z]) !! r0 = Some itr0)
        as Hroot.
      { intros r0 itr0 Hir0 Hda0. apply lookup_alter_snoc_ne; [|done].
        intros ->. congruence. }
      apply lookup_alter_snoc_inv in Hi
        as [(-> & itg0 & Hg0 & ->)|[(-> & ->)|(Hne & Hi)]].
      * assert (itg0 = itg) as -> by congruence.
        destruct (S2 g itg p Hg Hp Hk) as (r0 & itr0 & Hpar & Hir0 & Hda0 & Hin0).
        exists r0, itr0. split_and!; try done. by apply Hroot.
      * simpl in Hpi. injection Hpi as <-. done.
      * destruct (S2 i it' pi Hi Hpi Hki) as (r0 & itr0 & Hpar & Hir0 & Hda0 & Hin0).
        exists r0, itr0. split_and!; try done. by apply Hroot.
    + intros r0. rewrite Htop, Hitems. intros Hr0.
      destruct (S3 r0 Hr0) as (itr0 & Hir0 & Hda0).
      exists itr0. split; [|done]. apply lookup_alter_snoc_ne; [|done].
      intros ->. congruence.
    + rewrite Htop, <- S4. apply item_texts_stable.
      * intros i it Hi Hit. rewrite Hitems.
        destruct (decide (i = g)) as [->|Hne].
        -- eexists. split; [by apply lookup_alter_snoc_eq | done].
        -- exists it. split; [by apply lookup_alter_snoc_ne | done].
      * intros i Hi. destruct (S3 i Hi) as (? & ? & _). by eexists.
Qed.

(** The shape holds after every sequence of user actions. *)
Lemma Shape_run es : Shape (first_seen (dates es)) (run es init).
Proof.
  induction es as [|e es IH] using rev_ind.
  - apply Shape_init.
  - rewrite run_snoc, dates_snoc.
    pose proof (Shape_handle _ _ _ e _ (Inv_run es) IH) as H.
    destruct e as [now|now|item|sel|saves];
      try (by rewrite app_nil_r).
    change (dates [StartDiagClicked now]) with [date_str now].
    by rewrite first_seen_snoc.
Qed.

(** ** Further properties of the record tree *)

(** X1. [_ensure_date_root d] registers a top-level item for [d] and
    returns it; a second call returns the same item and changes nothing.
    Dates other than [d] and the items already in the store are left
    alone; when [d] is already registered the window is unchanged, and
    otherwise a fresh item labelled [d] is appended to the top level and
    the counter of [d] is initialised to 0 unless it already exists. *)
Theorem ensure_date_root_idempotent (d : string) (w : MainWindow) :
  let w1 := (_ensure_date_root d w).1 in
  let r := (_ensure_date_root d w).2 in
  date_roots w1 !! d = Some r
  ∧ _ensure_date_root d w1 = (w1, r)
  ∧ (∀ d', d' ≠ d →
       date_roots w1 !! d' = date_roots w !! d'
       ∧ diag_seq_by_date w1 !! d' = diag_seq_by_date w !! d')
  ∧ (∀ i it, items w !! i = Some it → items w1 !! i = Some it)
  ∧ (is_Some (date_roots w !! d) → w1 = w)
  ∧ (date_roots w !! d = None →
       top_level w1 = top_level w ++ [r]
       ∧ items w1 !! r = Some (new_item d)
       ∧ diag_seq_by_date w1 !! d
         = Some (default 0%Z (diag_seq_by_date w !! d))).
Proof.
  unfold _ensure_date_root.
  destruct (date_roots w !! d) as [r|] eqn:Hr; simpl.
  - rewrite Hr. split_and!; try done.
  - assert (∀ i it, items w !! i = Some it →
              (items w ++ [new_item d]) !! i = Some it) as Hold.
    { intros i it Hi. by apply lookup_app_l_Some. }
    assert ((items w ++ [new_item d]) !! length (items w) = Some (new_item d))
      as Hnew.
    { rewrite lookup_app_r by done. by rewrite Nat.sub_diag. }
    destruct (diag_seq_by_date w !! d) as [k|] eqn:Hk; simpl;
      rewrite ?lookup_insert_eq; simpl;
      (split_and!; try done;
       [ intros d' Hne; by rewrite ?lookup_insert_ne by done
       | by intros [? ?].. ]).
Qed.

Lemma ensure_date_root_idempotent_witness :
  let w := run [StartDiagClicked (timestamp "2024-01-01" "09:00:00")] init in
  (_ensure_date_root "2024-01-01" w).1 = w.
Proof.
  intros w.
  apply (ensure_date_root_idempotent "2024-01-01" w). by eexists.
Defined.

Lemma elem_of_first_seen l x : x ∈ first_seen l ↔ x ∈ l.
Proof.
  induction l as [|y l IH] using rev_ind; [done|].
  rewrite first_seen_snoc. case_bool_decide as Hy.
  - rewrite IH, elem_of_app, list_elem_of_singleton.
    split; [by left|]. intros [?| ->]; [done | by apply IH].
  - by rewrite !elem_of_app, IH.
Qed.

Lemma NoDup_first_seen l : NoDup (first_seen l).
Proof.
  induction l as [|y l IH] using rev_ind; [by apply NoDup_nil|].
  rewrite first_seen_snoc. case_bool_decide as Hy; [done|].
  apply NoDup_app. split_and!; [done | | apply NoDup_singleton].
  intros x Hx ->%list_elem_of_singleton. done.
Qed.

(** X2. After any sequence of user actions the top-level items of the
    tree are the date groups: their labels are the distinct dates on which
    a diagnosis was started, in the order in which each date was first
    used, no item is listed twice, and an item is in the top level
    exactly when [date_roots] registers it under its label. *)
Theorem top_level_in_first_seen_order (es : list UserEvent) :
  let w := run es init in
  item_text_of w <$> top_level w = first_seen (dates es)
  ∧ NoDup (top_level w)
  ∧ (∀ d, d ∈ first_seen (dates es) ↔ d ∈ dates es)
  ∧ (∀ d r, date_roots w !! d = Some r
            ↔ r ∈ top_level w ∧ item_text_of w r = d).
Proof.
  intros w. pose proof (Inv_run es) as HI. pose proof (Shape_run es) as HS.
  fold w in HI, HS. split_and!.
  - apply (shape_order _ _ HS).
  - apply (NoDup_fmap_1 (item_text_of w)).
    rewrite (shape_order _ _ HS). apply NoDup_first_seen.
  - intros d. apply elem_of_first_seen.
  - intros d r. split.
    + intros Hr.
      destruct (create_diagnosis_record_root_in_tree _ _ _ _ _ HI Hr)
        as (itr & Hir & Hda & Htx).
      destruct (shape_root _ _ HS r itr Hir Hda) as (_ & _ & Hin).
      split; [done|]. by rewrite (item_text_of_lookup _ _ _ Hir).
    + intros [Hin Htx].
      destruct (shape_top _ _ HS r Hin) as (itr & Hir & Hda).
      destruct (shape_root _ _ HS r itr Hir Hda) as (Hreg & _).
      by rewrite (item_text_of_lookup _ _ _ Hir) in Htx; subst d.
Qed.

Lemma diag_name_inj : Inj (=) (=) diag_name.
Proof.
  intros x y H. unfold diag_name in H.
  apply (inj (String.app "진단")) in H. by apply (inj pretty).
Qed.

Lemma action_name_inj : Inj (=) (=) action_name.
Proof.
  intros x y H. unfold action_name in H.
  apply (inj (String.app "조치")) in H. by apply (inj pretty).
Qed.

Lemma children_are_NoDup w (P : nat → QTreeWidgetItem → Prop)
    (f : Z → string) cs :
  Inj (=) (=) f →
  children_are w P cs →
  (∀ k it, P k it → item_text it = f (Z.of_nat k)) →
  NoDup cs.
Proof.
  intros Hf Hcs HP. apply NoDup_alt. intros i j c Hi Hj.
  destruct (Hcs i c Hi) as (it & Hit & HPi).
  destruct (Hcs j c Hj) as (it' & Hit' & HPj).
  assert (it' = it) as -> by congruence.
  apply HP in HPi, HPj. rewrite HPi in HPj. apply Hf in HPj. lia.
Qed.

(** The children of an item of a reachable tree, by the kind of the
    item. *)
Lemma children_of_item es i it :
  let w := run es init in
  items w !! i = Some it →
  (item_data it = None
   ∧ children_are w (is_diag_item (item_text it) i) (item_children it))
  ∨ (∃ p, item_data it = Some p ∧ kind p = Some "diagnosis"
          ∧ children_are w (is_action_item i (item_text it))
              (item_children it))
  ∨ (∃ p, item_data it = Some p ∧ kind p = Some "action"
          ∧ item_children it = []).
Proof.
  intros w Hit. pose proof (Inv_run es) as HI. pose proof (Shape_run es) as HS.
  fold w in HI, HS.
  destruct (item_data it) as [p|] eqn:Hp.
  - destruct (inv_item _ _ _ HI i it p Hit Hp)
      as [(Hk & _ & _ & Hch)|(Hk & g & itg & pg & j & Hpar & Hg & Hpg & Hkg & Hj)].
    + right. left. by exists p.
    + right. right. exists p. split_and!; try done.
      destruct (inv_item _ _ _ HI g itg pg Hg Hpg)
        as [(_ & _ & _ & Hch)|(? & _)]; [|congruence].
      destruct (Hch j i Hj) as (it' & Hit' & _ & _ & Hnil & _). congruence.
  - left. split; [done|].
    destruct (shape_root _ _ HS i it Hit Hp) as (Hreg & _).
    destruct (Nat.eq_dec (diag_count (item_text it) es) 0) as [Hz|Hnz].
    { apply (inv_absent _ _ _ HI) in Hz as [Hz _]. congruence. }
    assert (0 < diag_count (item_text it) es) as Hpos by lia.
    destruct (inv_root _ _ _ HI _ Hpos)
      as (r & itr & Hr & Hir & _ & _ & _ & _ & _ & Hcs).
    assert (r = i) as -> by congruence.
    assert (itr = it) as -> by congruence. done.
Qed.

Lemma item_level es i it :
  let w := run es init in
  items w !! i = Some it →
  (item_data it = None
   ∧ item_parent it = None
   ∧ i ∈ top_level w
   ∧ date_roots w !! item_text it = Some i)
  ∨ (∃ p r, item_data it = Some p
            ∧ kind p = Some "diagnosis"
            ∧ item_parent it = Some r
            ∧ r ∈ top_level w
            ∧ i ∈ children w r)
  ∨ (∃ p g pg, item_data it = Some p
               ∧ kind p = Some "action"
               ∧ item_parent it = Some g
               ∧ data w g = Some pg
               ∧ kind pg = Some "diagnosis"
               ∧ i ∈ children w g
               ∧ item_children it = []).
Proof.
  intros w Hit. pose proof (Inv_run es) as HI. pose proof (Shape_run es) as HS.
  fold w in HI, HS.
  destruct (item_data it) as [p|] eqn:Hp.
  - destruct (inv_item _ _ _ HI i it p Hit Hp)
      as [(Hk & _)|(Hk & g & itg & pg & j & Hpar & Hg & Hpg & Hkg & Hj)].
    + right. left.
      destruct (shape_diag _ _ HS i it p Hit Hp Hk)
        as (r & itr & Hpar & Hir & Hda & Hin).
      destruct (shape_root _ _ HS r itr Hir Hda) as (_ & _ & Htop).
      exists p, r. split_and!; try done.
      by rewrite (children_lookup _ _ _ Hir).
    + right. right. exists p, g, pg. split_and!; try done.
      * apply data_Some. by eauto.
      * rewrite (children_lookup _ _ _ Hg). by eapply list_elem_of_lookup_2.
      * destruct (children_of_item es i it Hit)
          as [(? & _)|[(p' & ? & ? & _)|(p' & _ & _ & Hnil)]];
          [congruence | congruence | done].
  - left. destruct (shape_root _ _ HS i it Hit Hp) as (? & ? & ?). done.
Qed.

(** X3. After any sequence of user actions every item of the tree is on
    one of three levels: a date group (no payload, no parent, in the top
    level, registered under its label), a diagnosis whose parent is a date
    group of the top level that lists it, or an action without children
    whose parent is a diagnosis that lists it. *)
Theorem tree_has_three_levels (es : list UserEvent) (i : item_id)
    (it : QTreeWidgetItem) :
  let w := run es init in
  items w !! i = Some it →
  (item_data it = None
   ∧ item_parent it = None
   ∧ i ∈ top_level w
   ∧ date_roots w !! item_text it = Some i)
  ∨ (∃ p r, item_data it = Some p
            ∧ kind p = Some "diagnosis"
            ∧ item_parent it = Some r
            ∧ r ∈ top_level w
            ∧ i ∈ children w r)
  ∨ (∃ p g pg, item_data it = Some p
               ∧ kind p = Some "action"
               ∧ item_parent it = Some g
               ∧ data w g = Some pg
               ∧ kind pg = Some "diagnosis"
               ∧ i ∈ children w g
               ∧ item_children it = []).
Proof. apply item_level. Qed.

Lemma tree_has_three_levels_witness :
  let es := [ StartDiagClicked (timestamp "2024-01-01" "09:00:00");
              RunActionClicked (timestamp "2024-01-01" "09:01:00") ] in
  let w := run es init in
  let it := new_action_item (timestamp "2024-01-01" "09:01:00") 1 "진단1" 1 in
  (item_data it = None
   ∧ item_parent it = None
   ∧ 2 ∈ top_level w
   ∧ date_roots w !! item_text it = Some 2)
  ∨ (∃ p r, item_data it = Some p
            ∧ kind p = Some "diagnosis"
            ∧ item_parent it = Some r
            ∧ r ∈ top_level w
            ∧ 2 ∈ children w r)
  ∨ (∃ p g pg, item_data it = Some p
               ∧ kind p = Some "action"
               ∧ item_parent it = Some g
               ∧ data w g = Some pg
               ∧ kind pg = Some "diagnosis"
               ∧ 2 ∈ children w g
               ∧ item_children it = []).
Proof.
  intros es w it. apply (tree_has_three_levels es 2 it).
  vm_compute; reflexivity.
Defined.

(** X4. After any sequence of user actions the parent pointers and the
    child lists agree: [q] is the parent of [c] exactly when [c] is among
    the children of [q]; and no child list names an item twice. *)
Theorem parent_and_children_agree (es : list UserEvent) :
  let w := run es init in
  (∀ c q, parent w c = Some q ↔ c ∈ children w q)
  ∧ (∀ q, NoDup (children w q)).
Proof.
  intros w. split.
  - intros c q. split.
    + unfold parent. destruct (items w !! c) as [itc|] eqn:Hc; [|done].
      simpl. intros Hpar.
      destruct (item_level es c itc Hc)
        as [(_ & Hnone & _)
           |[(p & r & _ & _ & Hr & _ & Hin)
            |(p & g & pg & _ & _ & Hg & _ & _ & Hin & _)]].
      * congruence.
      * by assert (q = r) as -> by congruence.
      * by assert (q = g) as -> by congruence.
    + unfold children. destruct (items w !! q) as [itq|] eqn:Hq; simpl;
        [|by intros ?%elem_of_nil].
      intros Hin. apply list_elem_of_lookup in Hin as [k Hk].
      unfold parent.
      destruct (children_of_item es q itq Hq)
        as [(_ & Hch)|[(p & _ & _ & Hch)|(p & _ & _ & Hnil)]].
      * destruct (Hch k c Hk) as (itc & Hitc & _ & Hpar & _).
        fold w in Hitc. by rewrite Hitc.
      * destruct (Hch k c Hk) as (itc & Hitc & _ & Hpar & _).
        fold w in Hitc. by rewrite Hitc.
      * by rewrite Hnil in Hk.
  - intros q. unfold children.
    destruct (items w !! q) as [itq|] eqn:Hq; simpl; [|apply NoDup_nil_2].
    destruct (children_of_item es q itq Hq)
      as [(_ & Hch)|[(p & _ & _ & Hch)|(p & _ & _ & ->)]].
    + eapply (children_are_NoDup _ _ diag_name);
        [apply diag_name_inj | done |]. by intros k it (? & _).
    + eapply (children_are_NoDup _ _ action_name);
        [apply action_name_inj | done |]. by intros k it (? & _).
    + apply NoDup_nil_2.
Qed.

(** ** How the operations compose *)

Lemma run_app es1 es2 w : run (es1 ++ es2) w = run es2 (run es1 w).
Proof. unfold run. by rewrite fold_left_app. Qed.

(** X5. After any sequence of user actions the two dictionaries of the
    window have the same keys, and every stored diagnosis counter is at
    least 1: the [setdefault] of [_ensure_date_root] never meets an
    existing counter and the default of [get] in
    [create_diagnosis_record] is only used for a date that was just
    registered with counter 0. *)
Theorem dictionaries_have_same_keys (es : list UserEvent) :
  let w := run es init in
  dom (date_roots w) = dom (diag_seq_by_date w)
  ∧ (∀ d k, diag_seq_by_date w !! d = Some k → (1 ≤ k)%Z).
Proof.
  intros w. pose proof (Inv_run es) as HI. fold w in HI.
  assert (∀ d, (date_roots w !! d = None ∧ diag_seq_by_date w !! d = None)
             ∨ (∃ r, date_roots w !! d = Some r
                     ∧ diag_seq_by_date w !! d
                       = Some (Z.of_nat (diag_count d es))
                     ∧ 0 < diag_count d es)) as Hcases.
  { intros d. destruct (Nat.eq_dec (diag_count d es) 0) as [Hz|Hnz].
    - left. by apply (inv_absent _ _ _ HI).
    - right. assert (0 < diag_count d es) as Hpos by lia.
      destruct (inv_root _ _ _ HI d Hpos)
        as (r & itr & Hr & _ & _ & _ & _ & _ & Hsq & _).
      by exists r. }
  split.
  - apply set_eq. intros d. rewrite !elem_of_dom.
    destruct (Hcases d) as [[-> ->]|(r & -> & -> & _)]; [done|].
    split; by eauto.
  - intros d k Hk. destruct (Hcases d) as [[_ Hn]|(r & _ & Hsq & Hpos)].
    + congruence.
    + assert (k = Z.of_nat (diag_count d es)) as -> by congruence. lia.
Qed.

Lemma create_diagnosis_record_current dc ac now w :
  Inv dc ac w →
  let w' := create_diagnosis_record now w in
  let seq := Z.of_nat (S (dc (date_str now))) in
  ∃ g r, current_item w' = Some g
         ∧ items w' !! g = Some (new_diag_item now r seq).
Proof.
  intros HI. simpl.
  destruct (date_roots w !! date_str now) as [r|] eqn:Hroot.
  - destruct (Nat.eq_dec (dc (date_str now)) 0) as [Hz|Hnz].
    { apply (inv_absent _ _ _ HI) in Hz as [Hz _]. congruence. }
    assert (0 < dc (date_str now)) as Hpos by lia.
    destruct (inv_root _ _ _ HI _ Hpos)
      as (r' & itr & Hr & Hir & _ & _ & _ & _ & Hsq & _).
    assert (r' = r) as -> by congruence.
    apply lookup_lt_Some in Hir.
    destruct (create_diagnosis_record_old_root now w r Hroot Hir)
      as (Hitems & _ & Hcur & _).
    exists (length (items w)), r. split; [done|].
    rewrite Hitems, lookup_alter_snoc_new. unfold next_diag_seq.
    rewrite Hsq. simpl. do 2 f_equal. lia.
  - destruct (Nat.eq_dec (dc (date_str now)) 0) as [Hz|Hnz]; cycle 1.
    { assert (0 < dc (date_str now)) as Hpos by lia.
      destruct (inv_root _ _ _ HI _ Hpos) as (r & itr & Hr & _). congruence. }
    destruct (inv_absent _ _ _ HI _ Hz) as [_ Hsq].
    destruct (create_diagnosis_record_new_root now w Hroot)
      as (Hitems & _ & Hcur & _).
    exists (S (length (items w))), (length (items w)). split; [done|].
    rewrite Hitems, lookup_app_r by lia.
    replace (S (length (items w)) - length (items w)) with 1 by lia.
    simpl. unfold next_diag_seq. by rewrite Hsq, Hz.
Qed.

Lemma action_target_diagnosis w g it p :
  current_item w = Some g → items w !! g = Some it →
  item_data it = Some p → kind p = Some "diagnosis" →
  action_target w = Some g.
Proof.
  intros Hc Hit Hp Hk. unfold action_target.
  assert (data w g = Some p) as Hd by (apply data_Some; by eauto).
  by rewrite (resolve_diagnosis w g p Hc Hd Hk), Hd.
Qed.

(** After an action was created under [g], the action button acts on
    [g] again. *)
Lemma action_target_after_action now w g :
  action_target w = Some g →
  action_target (create_action_record now w).1 = Some g.
Proof.
  intros Ht. apply action_target_Some in Ht as (Hres & itg & p & Hg & Hp).
  destruct (create_action_record_new_item now w g itg p Hres Hg Hp)
    as (Hcur & Ha & _).
  pose proof (create_action_record_items now w g itg p Hres Hg Hp) as Hitems.
  set (w' := (create_action_record now w).1) in *.
  assert (data w' (length (items w))
          = Some (action_payload now (item_text itg)
                    (default 0 (action_seq p) + 1)%Z)) as Hda.
  { unfold data. by rewrite Ha. }
  assert (parent w' (length (items w)) = Some g) as Hpar.
  { unfold parent. by rewrite Ha. }
  unfold action_target.
  rewrite (resolve_action w' _ _ Hcur Hda eq_refl), Hpar.
  unfold data. rewrite Hitems, (lookup_alter_snoc_eq _ _ _ _ itg) by done.
  done.
Qed.

(** X6. Creation moves the selection: after a diagnosis is started, any
    number of presses of the action button, with nothing else in between,
    all succeed and all go under that new diagnosis, whose children are
    then 조치1 ... 조치M for the M presses; the new diagnosis is labelled
    with the next number of its date. *)
Theorem actions_follow_new_diagnosis (es : list UserEvent) (now : Timestamp)
    (nows : list Timestamp) :
  let w0 := run (es ++ [StartDiagClicked now]) init in
  let w := run (RunActionClicked <$> nows) w0 in
  ∃ g, current_item w0 = Some g
       ∧ children w0 g = []
       ∧ action_target w = Some g
       ∧ item_text_of w g
         = diag_name (Z.of_nat (S (diag_count (date_str now) es)))
       ∧ item_text_of w <$> children w g
         = action_name <$> seq_numbers (length nows).
Proof.
  intros w0 w.
  destruct (create_diagnosis_record_current _ _ now _ (Inv_run es))
    as (g & r & Hcur & Hg).
  assert (w0 = create_diagnosis_record now (run es init)) as Hw0
    by (unfold w0; by rewrite run_snoc).
  rewrite <- Hw0 in Hcur, Hg.
  exists g. split; [done|].
  assert (children w0 g = []) as Hnil by (by rewrite (children_lookup _ _ _ Hg)).
  split; [done|].
  set (tr := λ l : list Timestamp,
         (es ++ [StartDiagClicked now]) ++ (RunActionClicked <$> l)).
  assert (∀ l, run (RunActionClicked <$> l) w0 = run (tr l) init) as Htr.
  { intros l. unfold tr. by rewrite run_app. }
  (* along the presses: the target, the label and the count *)
  assert (∀ l,
            action_target (run (tr l) init) = Some g
            ∧ item_text_of (run (tr l) init) g
              = diag_name (Z.of_nat (S (diag_count (date_str now) es)))
            ∧ action_count g (tr l) init = length l) as Hall.
  { induction l as [|t l IH] using rev_ind.
    - unfold tr. simpl. rewrite app_nil_r. fold w0. split_and!.
      + by eapply action_target_diagnosis.
      + by rewrite (item_text_of_lookup _ _ _ Hg).
      + pose proof (Inv_run (es ++ [StartDiagClicked now])) as HI.
        fold w0 in HI.
        destruct (inv_item _ _ _ HI g _ _ Hg eq_refl)
          as [(_ & _ & Hlen & _)|(? & _)]; [|done].
        by rewrite <- Hlen.
    - destruct IH as (Ht & Htx & Hcnt).
      assert (tr (l ++ [t]) = tr l ++ [RunActionClicked t]) as ->.
      { unfold tr. by rewrite fmap_app, app_assoc. }
      rewrite run_snoc, action_count_snoc. simpl. split_and!.
      + by apply action_target_after_action.
      + pose proof (Inv_run (tr l)) as HI.
        apply action_target_Some in Ht as (_ & itg & p & Hitg & _).
        destruct (handle_item_step _ _ (RunActionClicked t) _ _ _ HI Hitg)
          as (it' & Hit' & Htx' & _).
        simpl in Hit'.
        rewrite (item_text_of_lookup _ _ _ Hit'), Htx'.
        by rewrite <- (item_text_of_lookup _ _ _ Hitg).
      + rewrite bool_decide_eq_true_2 by done.
        rewrite length_app. simpl. lia. }
  unfold w. rewrite Htr.
  destruct (Hall nows) as (Ht & Htx & Hcnt). split_and!; try done.
  pose proof (Inv_run (tr nows)) as HI.
  apply action_target_Some in Ht as (Hres & _).
  destruct (resolve_in_tree _ _ _ _ HI Hres) as (itg & p & Hitg & Hp & Hk).
  destruct (inv_item _ _ _ HI g itg p Hitg Hp)
    as [(_ & _ & Hlen & Hch)|(? & _)]; [|congruence].
  rewrite (children_lookup _ _ _ Hitg), <- Hcnt, <- Hlen.
  eapply children_texts; [done|]. by intros k it (? & _).
Qed.

(** X7. After any sequence of user actions the action button has two
    outcomes only.  When the selected item carries a payload (it is a
    diagnosis or an action) the press creates an action, shows no message
    box and selects the new item; otherwise (nothing or a date group is
    selected) it shows the warning 선택 필요 and changes nothing.  The
    warning about a missing diagnosis payload is never shown. *)
Theorem create_action_record_outcomes (es : list UserEvent) (now : Timestamp) :
  let w := run es init in
  match current_item w ≫= data w with
  | Some _ =>
      ∃ g, action_target w = Some g
           ∧ (create_action_record now w).2 = []
           ∧ current_item (create_action_record now w).1
             = Some (length (items w))
           ∧ children (create_action_record now w).1 g
             = children w g ++ [length (items w)]
  | None => create_action_record now w = (w, [no_selection_warning])
  end.
Proof.
  intros w. pose proof (Inv_run es) as HI. fold w in HI.
  destruct (current_item w) as [i|] eqn:Hc; simpl.
  - destruct (data w i) as [p|] eqn:Hd.
    + assert (∃ g, action_target w = Some g) as [g Ht].
      { apply data_Some in Hd as (it & Hit & Hp).
        destruct (inv_item _ _ _ HI i it p Hit Hp)
          as [(Hk & _)|(Hk & g & itg & pg & j & Hpar & Hg & Hpg & Hkg & Hj)].
        - exists i. by eapply action_target_diagnosis.
        - exists g. unfold action_target.
          assert (data w i = Some p) as Hd by (apply data_Some; by eauto).
          rewrite (resolve_action w i p Hc Hd Hk).
          unfold parent, data. rewrite Hit. simpl. rewrite Hpar, Hg. simpl.
          by rewrite Hpg. }
      exists g. split; [done|].
      apply action_target_Some in Ht as (Hres & itg & pg & Hg & Hpg).
      destruct (create_action_record_frame now w g itg pg Hres Hg Hpg)
        as (_ & Hcur & _ & _ & Heff).
      destruct (create_action_record_new_item now w g itg pg Hres Hg Hpg)
        as (_ & _ & Hch).
      done.
    + unfold create_action_record.
      by rewrite (resolve_no_payload w i Hc Hd).
  - unfold create_action_record. by rewrite (resolve_no_current w Hc).
Qed.

(** X8. The report button shows what was just created: right after a
    diagnosis is started the dialog is opened with the payload of that
    diagnosis, numbered with the next number of its date, and right after
    an action is created with the payload of that action; every press of
    the save button in the dialog exports that payload.  The window state
    is not changed by the report button. *)
Theorem report_shows_new_record (es : list UserEvent) (now : Timestamp)
    (saves : list SaveEnv) :
  let w := run es init in
  (let w' := create_diagnosis_record now w in
   let p := diagnosis_payload now
              (Z.of_nat (S (diag_count (date_str now) es))) in
   handle (ReportClicked saves) w'
   = (w', ExecReportDialog p :: concat (map (_save_as_txt p) saves)))
  ∧ (∀ g, action_target w = Some g →
       let w' := (create_action_record now w).1 in
       let p := action_payload now (item_text_of w g)
                  (Z.of_nat (S (length (children w g)))) in
       handle (ReportClicked saves) w'
       = (w', ExecReportDialog p :: concat (map (_save_as_txt p) saves))).
Proof.
  intros w. pose proof (Inv_run es) as HI. fold w in HI. split.
  - destruct (create_diagnosis_record_current _ _ now _ HI)
      as (g & r & Hcur & Hg).
    fold w in Hcur, Hg. simpl. unfold open_report_dialog, data.
    by rewrite Hcur, Hg.
  - intros g Ht. simpl.
    apply action_target_Some in Ht as (Hres & _).
    destruct (resolve_in_tree _ _ _ _ HI Hres) as (itg & p & Hg & Hp & Hk).
    destruct (create_action_record_new_item now w g itg p Hres Hg Hp)
      as (Hcur & Ha & _).
    destruct (inv_item _ _ _ HI g itg p Hg Hp)
      as [(_ & Hseq & Hlen & _)|(? & _)]; [|congruence].
    unfold open_report_dialog, data. rewrite Hcur, Ha. simpl.
    rewrite (item_text_of_lookup _ _ _ Hg), (children_lookup _ _ _ Hg).
    rewrite Hseq, Hlen. simpl.
    by replace (Z.of_nat (action_count g es init) + 1)%Z
      with (Z.of_nat (S (action_count g es init))) by lia.
Qed.

Lemma report_shows_new_record_witness :
  let es := [StartDiagClicked (timestamp "2024-01-01" "09:00:00")] in
  let now := timestamp "2024-01-01" "09:10:00" in
  let w := run es init in
  let w' := (create_action_record now w).1 in
  let p := action_payload now (item_text_of w 1)
             (Z.of_nat (S (length (children w 1)))) in
  handle (ReportClicked []) w'
  = (w', ExecReportDialog p :: concat (map (_save_as_txt p) [])).
Proof.
  intros es now w w' p.
  apply (proj2 (report_shows_new_record es now []) 1).
  vm_compute; reflexivity.
Defined.

(** ** Further properties of the report dialog *)



Lemma get_replace_append old new s t n :
  new ≠ old →
  (∀ m, String.get m t ≠ Some old) →
  String.get n (replace old new s +:+ t) ≠ Some old.
Proof.
  intros Hne Ht. revert n. induction s as [|c s IH]; intros n.
  - apply Ht.
  - simpl.
    change (String ?a ?u +:+ ?v) with (String a (u +:+ v)).
    destruct n as [|n]; simpl; [|apply IH].
    case_bool_decide; congruence.
Qed.

(** X10. The file name offered by the save dialog never contains a space,
    whatever the title of the payload; it is "report.txt" for a payload
    without title. *)
Theorem default_name_has_no_space (payload : Payload) :
  (∀ n, String.get n (default_name payload) ≠ Some " "%char)
  ∧ (title payload = None → default_name payload = "report.txt").
Proof.
  split.
  - intros n. unfold default_name. apply get_replace_append; [done|].
    intros [|[|[|[|[|m]]]]]; simpl; congruence.
  - intros Ht. unfold default_name. by rewrite Ht.
Qed.

Lemma default_name_has_no_space_witness :
  default_name
    {| kind := None; created_at_full := None; created_time := None;
       title := None; text := None; table := None; action_seq := None |}
  = "report.txt".
Proof.
  apply default_name_has_no_space. reflexivity.
Defined.

(** *** The table of the dialog *)

Section PopulateTable.
Implicit Types (t : QTableWidget) (cs : list string).

Lemma setItem_in t r c v :
  r < tw_rows t → c < tw_columns t →
  setItem r c v t
  = {| tw_rows := tw_rows t; tw_columns := tw_columns t;
       tw_items := <[(r, c) := v]> (tw_items t) |}.
Proof. intros Hr Hc. unfold setItem. by rewrite bool_decide_eq_true_2. Qed.

(** Filling one row of a table with three columns. *)
Lemma populate_row t r cs :
  r < tw_rows t → tw_columns t = 3 → length cs ≤ 3 →
  let t' := foldl (λ t '(c_idx, value), setItem r c_idx value t)
              t (enumerate cs) in
  tw_rows t' = tw_rows t
  ∧ tw_columns t' = 3
  ∧ ∀ r' c, tw_items t' !! (r', c)
            = if bool_decide (r' = r ∧ c < length cs) then cs !! c
              else tw_items t !! (r', c).
Proof.
  intros Hr Hc Hlen.
  destruct cs as [|a [|b [|d [|? ?]]]]; simpl in Hlen; [| | | |lia];
    unfold enumerate; simpl;
    rewrite ?(setItem_in _ r 0 a) by (simpl; lia);
    rewrite ?(setItem_in _ r 1 b) by (simpl; lia);
    rewrite ?(setItem_in _ r 2 d) by (simpl; lia);
    simpl; (split_and!; [done | done |]);
    intros r' c; case_bool_decide as Hcase; simpl in Hcase.
  - lia.
  - done.
  - destruct Hcase as [-> Hlt]. assert (c = 0) as -> by lia.
    by rewrite lookup_insert_eq.
  - rewrite lookup_insert_ne; [done|]. intros [= <- <-]. apply Hcase. lia.
  - destruct Hcase as [-> Hlt].
    destruct c as [|[|?]]; [| |lia].
    + rewrite lookup_insert_ne by done. by rewrite lookup_insert_eq.
    + by rewrite lookup_insert_eq.
  - rewrite !lookup_insert_ne; [done|..];
      intros [= <- <-]; apply Hcase; lia.
  - destruct Hcase as [-> Hlt].
    destruct c as [|[|[|?]]]; [| | |lia].
    + rewrite !lookup_insert_ne by done. by rewrite lookup_insert_eq.
    + rewrite lookup_insert_ne by done. by rewrite lookup_insert_eq.
    + by rewrite lookup_insert_eq.
  - rewrite !lookup_insert_ne; [done|..];
      intros [= <- <-]; apply Hcase; lia.
Qed.

(** Filling the rows of an empty table with three columns. *)
Lemma populate_rows (rows : list (list string)) t :
  tw_columns t = 3 → tw_items t = ∅ → length rows ≤ tw_rows t →
  let t' := foldl (λ t '(r_idx, row),
                     foldl (λ t '(c_idx, value), setItem r_idx c_idx value t)
                       t (enumerate (take 3 row)))
              t (enumerate rows) in
  tw_rows t' = tw_rows t
  ∧ tw_columns t' = 3
  ∧ ∀ r c, tw_items t' !! (r, c)
           = if bool_decide (c < 3) then rows !! r ≫= (.!! c) else None.
Proof.
  intros Hc Hempty. induction rows as [|row rows IH] using rev_ind.
  - intros _. simpl. split_and!; try done.
    intros r c. rewrite Hempty, lookup_empty. by case_bool_decide.
  - rewrite length_app. simpl. intros Hlen.
    destruct IH as (Hrows & Hcols & Hitems); [lia|].
    unfold enumerate in *. rewrite imap_app, foldl_app. simpl.
    rewrite Nat.add_0_r.
    set (t1 := foldl _ t (imap _ rows)) in *.
    destruct (populate_row t1 (length rows) (take 3 row))
      as (Hrows' & Hcols' & Hitems');
      [lia | done | rewrite length_take; lia |].
    unfold enumerate in Hrows', Hcols', Hitems'.
    split_and!; [by rewrite Hrows' | done |].
    intros r c. rewrite Hitems', Hitems.
    rewrite length_take. case_bool_decide as Hcase.
    + destruct Hcase as [-> Hlt].
      rewrite bool_decide_eq_true_2 by lia.
      rewrite lookup_app_r, Nat.sub_diag by done. simpl.
      apply lookup_take_lt. lia.
    + case_bool_decide as Hc3; [|done].
      destruct (decide (r < length rows)) as [Hlt|Hge].
      * by rewrite lookup_app_l.
      * rewrite (lookup_ge_None_2 rows) by lia. simpl.
        destruct (decide (r = length rows)) as [->|Hne].
        -- rewrite lookup_app_r, Nat.sub_diag by done. simpl.
           symmetry. apply lookup_ge_None. lia.
        -- rewrite lookup_ge_None_2; [done|]. rewrite length_app. simpl. lia.
Qed.
End PopulateTable.

(** X11. The table of the report dialog and the exported text agree, for
    every payload: the table has one row per payload row, the cell at
    column 0, 1 or 2 holds the value of that column when the row has it
    and is empty otherwise, columns past the third are not shown, and the
    exported line of a row is "- " followed by the texts of its three
    cells separated by " | ". *)
Theorem dialog_table_matches_export (payload : Payload) :
  let rows := default [] (table payload) in
  let t := table_widget (ReportDialog_init payload) in
  tw_rows t = length rows
  ∧ tw_columns t = 3
  ∧ (∀ r c, tw_items t !! (r, c)
            = if bool_decide (c < 3) then rows !! r ≫= (.!! c) else None)
  ∧ (∀ r row, rows !! r = Some row →
       table_line row
       = "- " +:+ cell_text t r 0 +:+ " | " +:+ cell_text t r 1
         +:+ " | " +:+ cell_text t r 2).
Proof.
  intros rows t.
  destruct (populate_rows rows (setRowCount (length rows) (QTableWidget_new 0 3)))
    as (Hrows & Hcols & Hitems); [done | done | done |].
  change (foldl _ _ (enumerate rows)) with t in Hrows, Hcols, Hitems.
  split_and!; try done.
  intros r row Hrow. unfold cell_text. rewrite !Hitems, Hrow. simpl.
  by destruct row as [|a [|b [|c [|? ?]]]].
Qed.

Lemma dialog_table_matches_export_witness :
  let payload := action_payload (timestamp "2024-01-01" "09:01:00") "진단1" 1 in
  let t := table_widget (ReportDialog_init payload) in
  table_line ["조치결과"; "성공"; "placeholder"]
  = "- " +:+ cell_text t 1 0 +:+ " | " +:+ cell_text t 1 1
    +:+ " | " +:+ cell_text t 1 2.
Proof.
  intros payload t.
  apply (dialog_table_matches_export payload). reflexivity.
Defined.

(** ** The model of the vulnerability table *)

Lemma py_index_in_range {A} (l : list A) (i : Z) :
  (0 ≤ i < Z.of_nat (length l))%Z →
  ∃ x, l !! Z.to_nat i = Some x ∧ py_index l i = Returned x.
Proof.
  intros Hi. unfold py_index. cbv zeta.
  rewrite (bool_decide_eq_false_2 (i < 0)%Z) by lia.
  rewrite bool_decide_eq_true_2 by done.
  destruct (lookup_lt_is_Some_2 l (Z.to_nat i)) as [x Hx]; [lia|].
  exists x. by rewrite Hx.
Qed.

Lemma py_index_too_large {A} (l : list A) (i : Z) :
  (Z.of_nat (length l) ≤ i)%Z → py_index l i = IndexError.
Proof.
  intros Hi. unfold py_index. cbv zeta.
  rewrite (bool_decide_eq_false_2 (i < 0)%Z) by lia.
  by rewrite bool_decide_eq_false_2 by lia.
Qed.




(** X13. [headerData] for the display role: a horizontal section below
    [columnCount] gives the header of that column, a horizontal section
    at or past the number of headers raises [IndexError], and a vertical
    section [s] gives the decimal numeral of [s + 1]. *)
Theorem table_model_headerData (section : Z) :
  let top := VulnerabilityTableModel.no_index in
  let role := VulnerabilityTableModel.DisplayRole in
  ((0 ≤ section < VulnerabilityTableModel.columnCount top)%Z →
   ∃ h, VulnerabilityTableModel.HEADERS !! Z.to_nat section = Some h
        ∧ VulnerabilityTableModel.headerData section
            VulnerabilityTableModel.Horizontal role
          = Returned (Some h))
  ∧ ((VulnerabilityTableModel.columnCount top ≤ section)%Z →
     VulnerabilityTableModel.headerData section
       VulnerabilityTableModel.Horizontal role
     = IndexError)
  ∧ VulnerabilityTableModel.headerData section
      VulnerabilityTableModel.Vertical role
    = Returned (Some (pretty (section + 1)%Z)).
Proof.
  intros top role. split_and!.
  - intros Hs.
    destruct (py_index_in_range VulnerabilityTableModel.HEADERS section)
      as (h & Hh & Hp); [done|].
    exists h. split; [done|].
    unfold VulnerabilityTableModel.headerData. simpl. by rewrite Hp.
  - intros Hs. unfold VulnerabilityTableModel.headerData. simpl.
    by rewrite py_index_too_large.
  - done.
Qed.

Lemma table_model_headerData_witness :
  ∃ h, VulnerabilityTableModel.HEADERS !! Z.to_nat 2 = Some h
       ∧ VulnerabilityTableModel.headerData 2
           VulnerabilityTableModel.Horizontal
           VulnerabilityTableModel.DisplayRole
         = Returned (Some h).
Proof.
  apply (table_model_headerData 2). vm_compute. by split.
Defined.

(** ** The log view and the growth of the tree *)

Lemma on_tree_item_clicked_log w i :
  log_view (on_tree_item_clicked i w)
  = log_text (data (on_tree_item_clicked i w) i).
Proof.
  unfold data. rewrite on_tree_item_clicked_items.
  unfold on_tree_item_clicked, data. by destruct (items w !! i ≫= item_data).
Qed.

Lemma create_diagnosis_record_clicked now w :
  ∃ g w1, create_diagnosis_record now w = on_tree_item_clicked g w1
          ∧ current_item w1 = Some g.
Proof.
  unfold create_diagnosis_record.
  destruct (_ensure_date_root (date_str now) w) as [w0 r].
  unfold construct. by eexists _, _.
Qed.

Lemma create_action_record_clicked now w g :
  action_target w = Some g →
  ∃ a w1, (create_action_record now w).1 = on_tree_item_clicked a w1
          ∧ current_item w1 = Some a.
Proof.
  intros Ht. apply action_target_Some in Ht as (Hres & itg & p & Hg & Hp).
  unfold create_action_record. rewrite Hres.
  unfold data at 1. rewrite Hg. simpl. rewrite Hp.
  unfold construct. by eexists _, _.
Qed.

(** X14. The log view follows creation and clicks.  After any sequence
    of user actions: starting a diagnosis leaves in the log view the time
    of the press in brackets and, on the next line, the two-line dummy
    result of the new diagnosis with its number; creating an action under
    a diagnosis leaves the time and the dummy result naming the diagnosis
    label and the action number; and clicking an item of the tree selects
    it and shows its time and text, or the date-node notice when it has
    no payload. *)
Theorem log_view_after_actions (es : list UserEvent) (now : Timestamp) :
  let w := run es init in
  log_view (create_diagnosis_record now w)
  = "[" +:+ time_str now +:+ "]" +:+ nl
    +:+ diag_name (Z.of_nat (S (diag_count (date_str now) es)))
    +:+ " 더미 점검 결과입니다." +:+ nl
    +:+ "추후 실제 점검 로그/판정 결과가 표시됩니다."
  ∧ (∀ g, action_target w = Some g →
       log_view (create_action_record now w).1
       = "[" +:+ time_str now +:+ "]" +:+ nl
         +:+ item_text_of w g +:+ "에 대한 "
         +:+ action_name (Z.of_nat (S (length (children w g))))
         +:+ " 더미 실행 결과입니다.")
  ∧ (∀ i, i < length (items w) →
       let w' := (handle (ItemClicked i) w).1 in
       current_item w' = Some i
       ∧ items w' = items w
       ∧ log_view w' = log_text (data w i)).
Proof.
  intros w. pose proof (Inv_run es) as HI. fold w in HI. split_and!.
  - destruct (create_diagnosis_record_clicked now w) as (g & w1 & Heq & Hcur).
    destruct (create_diagnosis_record_current _ _ now _ HI)
      as (g' & r & Hcur' & Hg).
    fold w in Hcur', Hg.
    assert (g' = g) as ->.
    { rewrite Heq, on_tree_item_clicked_current_item in Hcur'. congruence. }
    rewrite Heq at 1. rewrite on_tree_item_clicked_log, <- Heq.
    unfold data. by rewrite Hg.
  - intros g Ht.
    destruct (create_action_record_clicked now w g Ht) as (a & w1 & Heq & Hcur).
    apply action_target_Some in Ht as (Hres & _).
    destruct (resolve_in_tree _ _ _ _ HI Hres) as (itg & p & Hg & Hp & Hk).
    destruct (create_action_record_new_item now w g itg p Hres Hg Hp)
      as (Hcur' & Ha & _).
    assert (a = length (items w)) as ->.
    { rewrite Heq, on_tree_item_clicked_current_item in Hcur'. congruence. }
    destruct (inv_item _ _ _ HI g itg p Hg Hp)
      as [(_ & Hseq & Hlen & _)|(? & _)]; [|congruence].
    rewrite Heq at 1. rewrite on_tree_item_clicked_log, <- Heq.
    unfold data. rewrite Ha. simpl.
    rewrite (item_text_of_lookup _ _ _ Hg), (children_lookup _ _ _ Hg).
    rewrite Hseq, Hlen. simpl.
    by replace (Z.of_nat (action_count g es init) + 1)%Z
      with (Z.of_nat (S (action_count g es init))) by lia.
  - intros i Hi. simpl. unfold in_tree.
    rewrite bool_decide_eq_true_2 by done. simpl.
    rewrite on_tree_item_clicked_current_item, on_tree_item_clicked_items.
    split_and!; try done.
    rewrite on_tree_item_clicked_log. unfold data.
    by rewrite on_tree_item_clicked_items.
Qed.

Lemma log_view_after_actions_witness :
  let es := [StartDiagClicked (timestamp "2024-01-01" "09:00:00")] in
  let now := timestamp "2024-01-01" "09:10:00" in
  let w := run es init in
  log_view (create_action_record now w).1
  = "[" +:+ time_str now +:+ "]" +:+ nl
    +:+ item_text_of w 1 +:+ "에 대한 "
    +:+ action_name (Z.of_nat (S (length (children w 1))))
    +:+ " 더미 실행 결과입니다.".
Proof.
  intros es now w.
  destruct (log_view_after_actions es now) as (_ & H & _).
  apply (H 1). vm_compute; reflexivity.
Defined.

(** X15. Nothing is ever removed, moved or relabelled.  After any
    sequence of user actions, one more user action keeps every item of
    the store with its label, its parent and the kind of its payload,
    only appends to its children and to the top level, keeps every
    registered date item, and adds at most two items to the store. *)
Theorem tree_only_grows (es : list UserEvent) (e : UserEvent) :
  let w := run es init in
  let w' := (handle e w).1 in
  top_level w `prefix_of` top_level w'
  ∧ (∀ i it, items w !! i = Some it →
       ∃ it', items w' !! i = Some it'
              ∧ item_text it' = item_text it
              ∧ item_parent it' = item_parent it
              ∧ item_children it `prefix_of` item_children it'
              ∧ (item_data it' ≫= kind) = (item_data it ≫= kind))
  ∧ (∀ d r, date_roots w !! d = Some r → date_roots w' !! d = Some r)
  ∧ length (items w) ≤ length (items w') ≤ length (items w) + 2.
Proof.
  intros w w'. pose proof (Inv_run es) as HI. fold w in HI. split_and!.
  - destruct (handle_shape _ _ e _ HI)
      as [(_ & _ & Htop & _)
         |[(now & r & itr & _ & _ & _ & _ & _ & _ & Htop & _)
          |[(now & _ & _ & _ & Htop & _)
           |(now & g & itg & p & _ & _ & _ & _ & _ & _ & Htop & _)]]];
      fold w' in Htop; rewrite Htop; try done.
    by apply prefix_app_r.
  - intros i it Hit.
    destruct (handle_item_step _ _ e _ _ _ HI Hit)
      as (it' & Hit' & Htx & Hpar & Hpre & Hda).
    exists it'. split_and!; try done.
    destruct (acts_on i w e).
    + destruct Hda as (p & -> & -> & _). done.
    + destruct Hda as (-> & _). done.
  - intros d r. by apply (handle_date_roots _ _ e _ d r HI).
  - destruct (handle_shape _ _ e _ HI)
      as [(_ & Hitems & _)
         |[(now & r & itr & _ & _ & _ & _ & _ & Hitems & _)
          |[(now & _ & _ & Hitems & _)
           |(now & g & itg & p & _ & _ & _ & _ & _ & Hitems & _)]]];
      fold w' in Hitems; rewrite Hitems;
      rewrite ?length_app, ?length_alter; simpl; lia.
  - destruct (handle_shape _ _ e _ HI)
      as [(_ & Hitems & _)
         |[(now & r & itr & _ & _ & _ & _ & _ & Hitems & _)
          |[(now & _ & _ & Hitems & _)
           |(now & g & itg & p & _ & _ & _ & _ & _ & Hitems & _)]]];
      fold w' in Hitems; rewrite Hitems;
      rewrite ?length_app, ?length_alter; simpl; lia.
Qed.
